(** * Spark SQL date and time functions of Velox

    A shallow embedding of [velox/functions/sparksql/DateTimeFunctions.h]
    and the properties of its function adapters: [year], [week],
    [make_date], [last_day], [date_add], [date_sub], [day_of_week],
    [date_diff], [add_months] and the [unix_timestamp] parsers.

    Integers of the C++ code are values of [Z]; every narrowing conversion
    and every wrap-around is written out ([Int.to_int32] and friends), the
    truncating [/] and [%] of C++ are [Z.quot] and [Z.rem]. *)

From Stdlib Require Import ZArith List Bool Lia String.
Import ListNotations.
Local Open Scope Z_scope.

(** ** Fixed-width integers *)

Module Int.

Definition INT32_MIN : Z := -2147483648.
Definition INT32_MAX : Z := 2147483647.

(** Two's-complement reduction of [x] to a signed [w]-bit-wide value,
    [half] being [2^(w-1)]. *)
Definition wrap (half x : Z) : Z := (x + half) mod (2 * half) - half.

Definition to_int16 (x : Z) : Z := wrap 32768 x.
Definition to_int32 (x : Z) : Z := wrap 2147483648 x.
Definition to_int64 (x : Z) : Z := wrap 9223372036854775808 x.

Definition in_int16 (x : Z) : Prop := -32768 <= x <= 32767.
Definition in_int32 (x : Z) : Prop := INT32_MIN <= x <= INT32_MAX.

Definition in_int32b (x : Z) : bool := (INT32_MIN <=? x) && (x <=? INT32_MAX).

(** The value of an [int32_t] expression whose exact result is [x]: signed
    overflow is undefined in C++ and has no value. *)
Definition checked_int32 (x : Z) : option Z :=
  if in_int32b x then Some x else None.

End Int.

(** ** What a call may raise

    [VELOX_USER_CHECK_EQ] raises a [VeloxUserError]; the message names the
    function and carries the formatted arguments. *)

Inductive VeloxUserError : Type :=
| IntegerOverflow (fn : string) (args : list Z).

Inductive result (A : Type) : Type :=
| Ok (a : A)
| Raise (e : VeloxUserError).
Arguments Ok {A} a.
Arguments Raise {A} e.

(** ** Calendar helpers of [velox/type/TimestampConversion.h] *)

Module util.

(** Modelled from the spec: [util::isLeapYear] is declared in
    velox/type/TimestampConversion.h, which is not part of the sources at
    hand.  "True iff divisible by 4 and (not divisible by 100 or divisible
    by 400)." *)
Definition isLeapYear (year : Z) : bool :=
  (year mod 4 =? 0) && (negb (year mod 100 =? 0) || (year mod 400 =? 0)).

(** Modelled from the spec: the "standard month lengths" behind
    [getMaxDayOfMonth], for month [month] (1..12) of a leap or a common
    year. *)
Definition month_length (leap : bool) (month : Z) : Z :=
  match month with
  | 1 => 31
  | 2 => if leap then 29 else 28
  | 3 => 31
  | 4 => 30
  | 5 => 31
  | 6 => 30
  | 7 => 31
  | 8 => 31
  | 9 => 30
  | 10 => 31
  | 11 => 30
  | 12 => 31
  | _ => 0
  end.

(** Modelled from the spec: [util::getMaxDayOfMonth] is declared in
    velox/type/TimestampConversion.h.  "Standard month lengths, February
    length 28 or 29 per isLeapYear."  A month outside 1..12 has no days
    here; no adapter passes one. *)
Definition getMaxDayOfMonth (year month : Z) : Z :=
  month_length (isLeapYear year) month.

(** The months of a year. *)
Definition months : list Z := [1; 2; 3; 4; 5; 6; 7; 8; 9; 10; 11; 12].

(** Modelled from the spec: part of the civil-to-days transform, the days
    of the year that precede the first day of [month]. *)
Definition days_before_month (leap : bool) (month : Z) : Z :=
  fold_right (fun k acc => if k <? month then month_length leap k + acc else acc)
             0 months.

(** Modelled from the spec: part of the civil-to-days transform, the days
    from 0001-01-01 to the first day of [year], proleptic Gregorian. *)
Definition days_before_year (year : Z) : Z :=
  let y := year - 1 in 365 * y + y / 4 - y / 100 + y / 400.

(** Number of days of [year], 366 when [isLeapYear]. *)
Definition year_length (year : Z) : Z := if isLeapYear year then 366 else 365.

(** Modelled from the spec: "day 0 = 1970-01-01", counted from 0001-01-01. *)
Definition kEpochOffset : Z := 719162.

(** Modelled from the spec: [util::daysSinceEpochFromDate] is declared in
    velox/type/TimestampConversion.h.  "Computes the day-count using the
    standard proleptic-Gregorian algorithm (civil-to-days transform).
    Accepts any integer year and month/day as given (no automatic
    normalization of out-of-range month/day)."  The value is the true
    day-count, before any narrowing. *)
Definition daysSinceEpochFromDate (year month day : Z) : Z :=
  days_before_year year + days_before_month (isLeapYear year) month
  + (day - 1) - kEpochOffset.

End util.

(** ** Broken-down time, [velox/functions/lib/TimeUtils.h] *)

(** The fields of [std::tm] the functions read. *)
Record tm : Type := mk_tm {
  tm_mday : Z;   (* day of the month, 1..31 *)
  tm_mon  : Z;   (* months since January, 0..11 *)
  tm_year : Z;   (* years since 1900 *)
  tm_wday : Z;   (* days since Sunday, 0..6 *)
  tm_yday : Z    (* days since January 1, 0..365 *)
}.

Module TimeUtils.

(** Modelled from the spec: [kDaysInWeek] is declared in
    velox/functions/lib/TimeUtils.h; the base estimate of the week divides
    by 7. *)
Definition kDaysInWeek : Z := 7.

(** Modelled from the spec: part of [getDateTime], "the inverse of the
    epoch-day transform".  Splits a number of days [n] counted from
    0001-01-01 into the year and the zero-based day of that year: 400-,
    100-, 4- and 1-year cycles. *)
Definition year_split (n : Z) : Z * Z :=
  let q400 := n / 146097 in
  let r400 := n mod 146097 in
  let q100 := Z.min (r400 / 36524) 3 in
  let r100 := r400 - 36524 * q100 in
  let q4 := r100 / 1461 in
  let r4 := r100 mod 1461 in
  let q1 := Z.min (r4 / 365) 3 in
  (400 * q400 + 100 * q100 + 4 * q4 + q1 + 1, r4 - 365 * q1).

(** Modelled from the spec: part of [getDateTime].  Walks the months
    [mon], [mon+1], ... of lengths [lens], consuming [rest] days; returns
    the month reached and the days left in it. *)
Fixpoint split_yday (lens : list Z) (mon rest : Z) : Z * Z :=
  match lens with
  | [] => (mon, rest)
  | len :: lens' =>
      if rest <? len then (mon, rest)
      else split_yday lens' (mon + 1) (rest - len)
  end.

(** Modelled from the spec: [getDateTime(Date)] is declared in
    velox/functions/lib/TimeUtils.h (it defers to the C library).  "For a
    Date, decompose directly (no timezone shift) using the inverse of the
    epoch-day transform"; day-of-week 0 = Sunday .. 6 = Saturday, and
    1970-01-01 was a Thursday. *)
Definition getDateTime (date : Z) : tm :=
  let '(year, yday) := year_split (date + util.kEpochOffset) in
  let '(mon, mday0) :=
    split_yday (map (util.getMaxDayOfMonth year) util.months) 0 yday in
  {| tm_mday := mday0 + 1;
     tm_mon := mon;
     tm_year := year - 1900;
     tm_wday := (date + 4) mod 7;
     tm_yday := yday |}.

(** [getYear], [getMonth], [getDay]: as [LastDayFunction] and
    [YearFunction] define them. *)
Definition getYear (time : tm) : Z := 1900 + tm_year time.
Definition getMonth (time : tm) : Z := 1 + tm_mon time.
Definition getDay (time : tm) : Z := tm_mday time.

End TimeUtils.

(** ** Date arithmetic of [velox/functions/prestosql/DateTimeImpl.h] *)

Module DateTimeImpl.

(** Modelled from the spec: [DateTimeUnit] is declared in
    velox/functions/prestosql/DateTimeImpl.h; [kDay] is the unit the Spark
    adapters pass, the other units are not used by them. *)
Inductive DateTimeUnit : Type := kDay.

(** Modelled from the spec: [addToDate] is declared in
    velox/functions/prestosql/DateTimeImpl.h.  "Shifts the epoch-day count
    by n"; a Date is a signed 32-bit count, so the sum is reduced to 32
    bits ("wraps ... safely"). *)
Definition addToDate (input : Z) (unit : DateTimeUnit) (value : Z) : Z :=
  match unit with
  | kDay => Int.to_int32 (input + value)
  end.

End DateTimeImpl.

(** ** The function adapters, [velox/functions/sparksql/DateTimeFunctions.h] *)

Module sparksql.

Import Int util TimeUtils DateTimeImpl.

Module WeekFunction.

(** [floor] is applied to an integer and leaves it as it is; the
    quotient of that value by [kDaysInWeek], converted to [int32_t], is
    the quotient truncated towards zero. *)
Definition getWeek (time : tm) : Z :=
  let week :=
    to_int32
      (Z.quot (10 + (tm_yday time + 1)
               - (if negb (tm_wday time =? 0) then tm_wday time
                  else kDaysInWeek))
              kDaysInWeek) in
  if week =? 0 then
    let mondayOfWeek :=
      tm_yday time + 1
      - Z.rem (tm_wday time + kDaysInWeek - 1) kDaysInWeek in
    let firstMondayOfYear :=
      1 + Z.rem (mondayOfWeek + kDaysInWeek - 1) kDaysInWeek in
    if (isLeapYear (tm_year time + 1900 - 1) && (firstMondayOfYear =? 2))
       || (firstMondayOfYear =? 3) || (firstMondayOfYear =? 4)
    then 53
    else 52
  else if week =? 53 then
    let mondayOfWeek :=
      tm_yday time + 1
      - Z.rem (tm_wday time + kDaysInWeek - 1) kDaysInWeek in
    let daysInYear :=
      if isLeapYear (tm_year time + 1900) then 366 else 365 in
    if daysInYear - mondayOfWeek <? 3 then 1 else week
  else week.

Definition call (date : Z) : Z := getWeek (getDateTime date).

End WeekFunction.

Module MakeDateFunction.

Definition call (year month day : Z) : result Z :=
  let daysSinceEpoch := to_int64 (daysSinceEpochFromDate year month day) in
  if daysSinceEpoch =? to_int32 daysSinceEpoch
  then Ok (to_int32 daysSinceEpoch)
  else Raise (IntegerOverflow "make_date" [year; month; day]).

End MakeDateFunction.

Module LastDayFunction.

Definition getYear (time : tm) : Z := to_int64 (1900 + tm_year time).
Definition getMonth (time : tm) : Z := to_int64 (1 + tm_mon time).
Definition getDay (time : tm) : Z := to_int64 (tm_mday time).

(** [call] over any calendar helpers. *)
Section Helpers.

Variable getDateTime : Z -> tm.
Variable getMaxDayOfMonth : Z -> Z -> Z.
Variable daysSinceEpochFromDate : Z -> Z -> Z -> Z.

(** [day] is read with [getMonth], as in the source; it only reaches
    the error message. *)
Definition call_with (date : Z) : result Z :=
  let dateTime := getDateTime date in
  let year := to_int32 (getYear dateTime) in
  let month := to_int32 (getMonth dateTime) in
  let day := to_int32 (getMonth dateTime) in
  let lastDay := to_int32 (getMaxDayOfMonth year month) in
  let daysSinceEpoch :=
    to_int64 (daysSinceEpochFromDate year month lastDay) in
  if daysSinceEpoch =? to_int32 daysSinceEpoch
  then Ok (to_int32 daysSinceEpoch)
  else Raise (IntegerOverflow "last_day" [year; month; day]).

End Helpers.

Definition call : Z -> result Z :=
  call_with TimeUtils.getDateTime util.getMaxDayOfMonth
            util.daysSinceEpochFromDate.

End LastDayFunction.

Module DateAddFunction.

(** [call] over any day-shifting [addToDate]. *)
Section Helpers.

Variable addToDate : Z -> DateTimeUnit -> Z -> Z.

Definition call_with (date value : Z) : Z := addToDate date kDay value.

End Helpers.

Definition call : Z -> Z -> Z := call_with DateTimeImpl.addToDate.

End DateAddFunction.

Module DateSubFunction.

(** [call] over any day-shifting [addToDate]. *)
Section Helpers.

Variable addToDate : Z -> DateTimeUnit -> Z -> Z.

Definition call_with (date value : Z) : Z :=
  let kMin := INT32_MIN in
  if value >? kMin then
    let subValue := to_int32 (0 - value) in
    addToDate date kDay subValue
  else
    let subValue := to_int32 (0 - (kMin + 1)) in
    let result := addToDate date kDay subValue in
    addToDate result kDay 1.

End Helpers.

Definition call : Z -> Z -> Z := call_with DateTimeImpl.addToDate.

(** [call] once more, with every [int32_t] operation of its own body
    checked: [None] as soon as [0 - value], [kMin + 1] or [0 - (kMin + 1)]
    overflows. *)
Section Checked.

Variable addToDate : Z -> DateTimeUnit -> Z -> Z.

Definition call_checked (date value : Z) : option Z :=
  let kMin := INT32_MIN in
  if value >? kMin then
    match checked_int32 (0 - value) with
    | None => None
    | Some subValue => Some (addToDate date kDay subValue)
    end
  else
    match checked_int32 (kMin + 1) with
    | None => None
    | Some kMin1 =>
        match checked_int32 (0 - kMin1) with
        | None => None
        | Some subValue =>
            let result := addToDate date kDay subValue in
            Some (addToDate result kDay 1)
        end
    end.

End Checked.

End DateSubFunction.

Module DateDiffFunction.

(** The subtraction is done on [int32_t] with the overflow check of the
    sanitizer switched off: the difference modulo [2^32]. *)
Definition call (endDate startDate : Z) : Z :=
  to_int32 (endDate - startDate).

End DateDiffFunction.

Module AddMonthsFunction.

Definition call (date numMonths : Z) : result Z :=
  let dateTime := getDateTime date in
  let year := to_int32 (TimeUtils.getYear dateTime) in
  let month := to_int32 (TimeUtils.getMonth dateTime) in
  let day := to_int32 (TimeUtils.getDay dateTime) in
  let monthAdded := to_int64 (month - 1 + numMonths) in
  let yearOffset :=
    Z.quot (if monthAdded >=? 0 then monthAdded else monthAdded - 11) 12 in
  let monthResult := to_int32 (monthAdded - yearOffset * 12 + 1) in
  let yearResult := to_int64 (year + yearOffset) in
  let lastDayOfMonth := getMaxDayOfMonth (to_int32 yearResult) monthResult in
  let dayResult := if lastDayOfMonth <? day then lastDayOfMonth else day in
  let daysSinceEpoch :=
    to_int64
      (daysSinceEpochFromDate (to_int32 yearResult) monthResult dayResult) in
  if daysSinceEpoch =? to_int32 daysSinceEpoch
  then Ok (to_int32 daysSinceEpoch)
  else Raise (IntegerOverflow "add_months" [date; numMonths]).

End AddMonthsFunction.

(** Feeds the date one adapter returns to the next one. *)
Definition and_then {A B : Type} (r : result A) (f : A -> result B) : result B :=
  match r with
  | Ok a => f a
  | Raise e => Raise e
  end.

(** The state and the steps of [UnixTimestampParseFunction] and of
    [UnixTimestampParseWithFormatFunction].  The formatter, the timestamp
    and the time-zone registry are declared outside of this file
    (velox/functions/lib/DateTimeFormatter.h, velox/type/Timestamp.h,
    velox/type/tz/TimeZoneMap.h) and are parameters here.  A call that
    throws [VeloxUserError] returns [None]. *)
Section UnixTimestampParse.

Variable DateTimeFormatter : Type.
Variable Timestamp : Type.
Variable buildJodaDateTimeFormatter : string -> option DateTimeFormatter.
Variable getTimeZoneID : string -> Z.
Variable toGMT : Timestamp -> Z -> option Timestamp.
Variable getSeconds : Timestamp -> Z.

Record DateTimeResult : Type := mk_DateTimeResult {
  timestamp : Timestamp;
  timezoneId : Z
}.

Variable parse : DateTimeFormatter -> string -> option DateTimeResult.

(** The members of the adapter; [format_] is a pointer and may be null. *)
Record ParseState : Type := mk_ParseState {
  format_ : option DateTimeFormatter;
  sessionTzID_ : option Z;
  isConstFormat_ : bool;
  invalidFormat_ : bool
}.

(** The members as the in-class initialisers leave them. *)
Definition constructed : ParseState :=
  {| format_ := None;
     sessionTzID_ := None;
     isConstFormat_ := false;
     invalidFormat_ := false |}.

(** [sessionTzName] is [config.sessionTimezone()]. *)
Definition setTimezone (sessionTzName : string) (st : ParseState) : ParseState :=
  if negb (String.eqb sessionTzName EmptyString)
  then {| format_ := format_ st;
          sessionTzID_ := Some (getTimeZoneID sessionTzName);
          isConstFormat_ := isConstFormat_ st;
          invalidFormat_ := invalidFormat_ st |}
  else st.

Definition value_or (o : option Z) (default : Z) : Z :=
  match o with
  | Some v => v
  | None => default
  end.

(** The result is narrowed to [int16_t]. *)
Definition getTimezoneId (st : ParseState) (result : DateTimeResult) : Z :=
  to_int16 (if negb (timezoneId result =? -1) then timezoneId result
            else value_or (sessionTzID_ st) 0).

(** What a row evaluates to: a value, SQL null ([call] returned [false]),
    or nothing defined (a null [format_] dereferenced). *)
Inductive outcome : Type :=
| Value (seconds : Z)
| Null
| Undefined.

(** Every step also reports the patterns it handed to
    [buildJodaDateTimeFormatter], in order. *)
Definition initialize (sessionTzName : string) (format : option string)
    (st : ParseState) : ParseState * list string :=
  let '(st1, compiled) :=
    match format with
    | Some f =>
        let st' :=
          match buildJodaDateTimeFormatter f with
          | Some fmt =>
              {| format_ := Some fmt;
                 sessionTzID_ := sessionTzID_ st;
                 isConstFormat_ := isConstFormat_ st;
                 invalidFormat_ := invalidFormat_ st |}
          | None =>
              {| format_ := format_ st;
                 sessionTzID_ := sessionTzID_ st;
                 isConstFormat_ := isConstFormat_ st;
                 invalidFormat_ := true |}
          end in
        ({| format_ := format_ st';
            sessionTzID_ := sessionTzID_ st';
            isConstFormat_ := true;
            invalidFormat_ := invalidFormat_ st' |}, [f])
    | None => (st, [])
    end in
  (setTimezone sessionTzName st1, compiled).

(** The part of [call] after the formatter is known. *)
Definition parse_with (st : ParseState) (input : string) : outcome :=
  match format_ st with
  | None => Undefined
  | Some fmt =>
      match parse fmt input with
      | None => Null
      | Some dateTimeResult =>
          match toGMT (timestamp dateTimeResult)
                      (getTimezoneId st dateTimeResult) with
          | None => Null
          | Some ts => Value (getSeconds ts)
          end
      end
  end.

Definition call (st : ParseState) (input format : string)
    : outcome * ParseState * list string :=
  if invalidFormat_ st then (Null, st, [])
  else if negb (isConstFormat_ st) then
    match buildJodaDateTimeFormatter format with
    | None => (Null, st, [format])
    | Some fmt =>
        let st' := {| format_ := Some fmt;
                      sessionTzID_ := sessionTzID_ st;
                      isConstFormat_ := isConstFormat_ st;
                      invalidFormat_ := invalidFormat_ st |} in
        (parse_with st' input, st', [format])
    end
  else (parse_with st input, st, []).

(** One call per row [(input, format)], on the same adapter. *)
Fixpoint call_rows (st : ParseState) (rows : list (string * string))
    : list outcome * ParseState * list string :=
  match rows with
  | [] => ([], st, [])
  | (input, format) :: rows' =>
      let '(o, st1, c1) := call st input format in
      let '(os, st2, c2) := call_rows st1 rows' in
      (o :: os, st2, c1 ++ c2)
  end.

End UnixTimestampParse.

Arguments timestamp {Timestamp} _.
Arguments timezoneId {Timestamp} _.
Arguments mk_DateTimeResult {Timestamp} _ _.
Arguments format_ {DateTimeFormatter} _.
Arguments sessionTzID_ {DateTimeFormatter} _.
Arguments isConstFormat_ {DateTimeFormatter} _.
Arguments invalidFormat_ {DateTimeFormatter} _.
Arguments mk_ParseState {DateTimeFormatter} _ _ _ _.
Arguments constructed {DateTimeFormatter}.
Arguments setTimezone {DateTimeFormatter} _ _ _.
Arguments getTimezoneId {DateTimeFormatter Timestamp} _ _.
Arguments initialize {DateTimeFormatter} _ _ _ _ _.
Arguments parse_with {DateTimeFormatter Timestamp} _ _ _ _ _.
Arguments call {DateTimeFormatter Timestamp} _ _ _ _ _ _ _.
Arguments call_rows {DateTimeFormatter Timestamp} _ _ _ _ _ _.

Module YearFunction.

Definition getYear (time : tm) : Z := to_int32 (1900 + tm_year time).

Definition call (date : Z) : Z := getYear (getDateTime date).

End YearFunction.

Module DayOfWeekFunction.

(** 1 = Sunday, 2 = Monday, ..., 7 = Saturday. *)
Definition getDayOfWeek (time : tm) : Z := to_int32 (tm_wday time + 1).

Definition call (date : Z) : Z := getDayOfWeek (getDateTime date).

End DayOfWeekFunction.

Module UnixTimestampParseFunction.

(** "Default if format is not specified, as per Spark documentation." *)
Definition kDefaultFormat_ : string := "yyyy-MM-dd HH:mm:ss".

(** [unix_timestamp(input)] over the same parameters as the adapter with a
    format.  Nothing catches what [buildJodaDateTimeFormatter] throws in
    [initialize] or what [toGMT] throws in [call]: [None] is a
    [VeloxUserError] that leaves the function. *)
Section OneArgument.

Context {DateTimeFormatter Timestamp : Type}.
Variable buildJodaDateTimeFormatter : string -> option DateTimeFormatter.
Variable getTimeZoneID : string -> Z.
Variable toGMT : Timestamp -> Z -> option Timestamp.
Variable getSeconds : Timestamp -> Z.
Variable parse : DateTimeFormatter -> string -> option (DateTimeResult Timestamp).

Definition initialize (sessionTzName : string)
    (st : ParseState DateTimeFormatter)
    : option (ParseState DateTimeFormatter) * list string :=
  match buildJodaDateTimeFormatter kDefaultFormat_ with
  | None => (None, [kDefaultFormat_])
  | Some fmt =>
      (Some (setTimezone getTimeZoneID sessionTzName
               {| format_ := Some fmt;
                  sessionTzID_ := sessionTzID_ st;
                  isConstFormat_ := isConstFormat_ st;
                  invalidFormat_ := invalidFormat_ st |}),
       [kDefaultFormat_])
  end.

Definition call (st : ParseState DateTimeFormatter) (input : string)
    : option outcome :=
  match format_ st with
  | None => Some Undefined
  | Some fmt =>
      match parse fmt input with
      | None => Some Null
      | Some dateTimeResult =>
          match toGMT (timestamp dateTimeResult)
                      (getTimezoneId st dateTimeResult) with
          | None => None
          | Some ts => Some (Value (getSeconds ts))
          end
      end
  end.

End OneArgument.

End UnixTimestampParseFunction.

End sparksql.


Import Int util TimeUtils DateTimeImpl sparksql.

(** ** The week number as the specification words it *)

Module Spec.

(** Sunday is 7, Monday to Saturday are 1 to 6. *)
Definition isoDayOfWeek (t : tm) : Z := if tm_wday t =? 0 then 7 else tm_wday t.

(** One-based day of the year. *)
Definition dayOfYear (t : tm) : Z := tm_yday t + 1.

(** "Base estimate: week = floor((10 + dayOfYear - isoDayOfWeek) / 7)". *)
Definition base_estimate (t : tm) : Z := (10 + dayOfYear t - isoDayOfWeek t) / 7.

(** One-based day of the year of the Monday of the week of [t]. *)
Definition mondayOfWeek (t : tm) : Z := dayOfYear t - (isoDayOfWeek t - 1).

(** One-based day of [year] on which its first Monday falls. *)
Definition firstMonday (year : Z) : Z :=
  1 + (8 - tm_wday (getDateTime (daysSinceEpochFromDate year 1 1))) mod 7.

(** The staged computation of the week of [t]; [first] is the day on which
    the first Monday of the year consulted by the estimate-0 rule falls. *)
Definition staged_week (t : tm) (first : Z) : Z :=
  let estimate := base_estimate t in
  if estimate =? 0 then
    if (isLeapYear (getYear t - 1) && (first =? 2)) || (first =? 3) || (first =? 4)
    then 53 else 52
  else if estimate =? 53 then
    if year_length (getYear t) - mondayOfWeek t <? 3 then 1 else 53
  else estimate.

(** The week number as the specification states it: the estimate-0 rule
    consults the first Monday of the previous year. *)
Definition week_as_stated (date : Z) : Z :=
  let t := getDateTime date in
  staged_week t (firstMonday (getYear t - 1)).

(** ISO-8601 from its definition: weeks run Monday to Sunday and belong to
    the year of their Thursday; week 1 holds the first Thursday. *)
Definition iso_week (date : Z) : Z :=
  let thursday := date - isoDayOfWeek (getDateTime date) + 4 in
  tm_yday (getDateTime thursday) / 7 + 1.

(** The two estimate-0 cases in which [getWeek] leaves ISO-8601. *)
Definition off_iso (date : Z) : Prop :=
  let t := getDateTime date in
  base_estimate t = 0 /\
  ((firstMonday (getYear t) = 3 /\ isLeapYear (getYear t - 1) = false) \/
   (firstMonday (getYear t) = 2 /\ isLeapYear (getYear t - 1) = true)).

End Spec.

(** * Tactics *)

(** Linear arithmetic with quotients and remainders by constants. *)
Ltac dlia := Z.div_mod_to_equations; lia.

(** Quotient and remainder by exhibiting the other one. *)
Ltac div_is rem := symmetry; apply (Z.div_unique _ _ _ rem); lia.
Ltac mod_is quo := symmetry; apply (Z.mod_unique _ _ quo); lia.

(** One case per comparison of a conditional. *)
Ltac case_ltb :=
  repeat match goal with
         | |- context [if ?a <? ?b then _ else _] => destruct (Z.ltb_spec a b)
         end.

(** One case per month of the year. *)
Ltac each_month H :=
  match type of H with
  | 1 <= ?m <= 12 =>
      let C := fresh "C" in
      assert (C : m = 1 \/ m = 2 \/ m = 3 \/ m = 4 \/ m = 5 \/ m = 6 \/
                  m = 7 \/ m = 8 \/ m = 9 \/ m = 10 \/ m = 11 \/ m = 12)
        by lia;
      clear H;
      repeat (destruct C as [C|C]; [subst m | ]); [.. | subst m]
  end.

(** Evaluates the table look-ups at closed months. *)
Ltac eval_months :=
  repeat match goal with
         | |- context [month_length ?l ?m] =>
             let v := eval vm_compute in (month_length l m) in
             change (month_length l m) with v
         | |- context [days_before_month ?l ?m] =>
             let v := eval vm_compute in (days_before_month l m) in
             change (days_before_month l m) with v
         end.

(** * Properties *)

(** ** Facts about the fixed-width conversions *)

Lemma wrap_small (half x : Z) : -half <= x < half -> wrap half x = x.
Proof.
  intros H. unfold wrap.
  rewrite Z.mod_small by lia. lia.
Qed.

Lemma wrap_range (half x : Z) : 0 < half -> -half <= wrap half x < half.
Proof.
  intros H. unfold wrap.
  pose proof (Z.mod_pos_bound (x + half) (2 * half)). lia.
Qed.

Lemma wrap_congr (half x : Z) :
  0 < half -> (wrap half x) mod (2 * half) = x mod (2 * half).
Proof.
  intros H. unfold wrap.
  rewrite Zminus_mod, Zmod_mod, <- Zminus_mod.
  f_equal. lia.
Qed.

Lemma to_int32_small (x : Z) : in_int32 x -> to_int32 x = x.
Proof. unfold in_int32, INT32_MIN, INT32_MAX, to_int32. intros; apply wrap_small; lia. Qed.

Lemma to_int32_range (x : Z) : in_int32 (to_int32 x).
Proof.
  unfold in_int32, INT32_MIN, INT32_MAX, to_int32.
  pose proof (wrap_range 2147483648 x). lia.
Qed.

Lemma to_int32_fixed (x : Z) : to_int32 x = x <-> in_int32 x.
Proof.
  split; [intros <-; apply to_int32_range | apply to_int32_small].
Qed.

Lemma to_int32_add_l (x y : Z) : to_int32 (to_int32 x + y) = to_int32 (x + y).
Proof.
  unfold to_int32, wrap.
  f_equal.
  replace ((x + 2147483648) mod (2 * 2147483648) - 2147483648 + y + 2147483648)
    with ((x + 2147483648) mod (2 * 2147483648) + y) by lia.
  rewrite Zplus_mod_idemp_l. f_equal. lia.
Qed.

Lemma in_int32b_spec (x : Z) : in_int32b x = true <-> in_int32 x.
Proof. unfold in_int32b, in_int32. lia. Qed.

Lemma to_int16_small (x : Z) : in_int16 x -> to_int16 x = x.
Proof. unfold in_int16, to_int16. intros; apply wrap_small; lia. Qed.

(** ** Facts about the calendar *)

(** The base-400/100/4 digits of a year, from which every quotient and
    remainder of the leap rule is read off. *)
Lemma year_digits (y : Z) :
  exists a b c e,
    y = 400 * a + 100 * b + 4 * c + e /\
    0 <= b <= 3 /\ 0 <= c <= 24 /\ 0 <= e <= 3.
Proof.
  pose proof (Z.div_mod y 400 ltac:(lia)) as E400.
  pose proof (Z.mod_pos_bound y 400 ltac:(lia)) as B400.
  set (r := y mod 400) in *. clearbody r.
  pose proof (Z.div_mod r 100 ltac:(lia)) as E100.
  pose proof (Z.mod_pos_bound r 100 ltac:(lia)) as B100.
  set (r' := r mod 100) in *. clearbody r'.
  pose proof (Z.div_mod r' 4 ltac:(lia)) as E4.
  pose proof (Z.mod_pos_bound r' 4 ltac:(lia)) as B4.
  exists (y / 400), (r / 100), (r' / 4), (r' mod 4).
  lia.
Qed.

Lemma isLeapYear_digits (a b c e : Z) :
  0 <= b <= 3 -> 0 <= c <= 24 -> 0 <= e <= 3 ->
  isLeapYear (400 * a + 100 * b + 4 * c + e) =
  (e =? 0) && (negb (c =? 0) || (b =? 0)).
Proof.
  intros Hb Hc He. unfold isLeapYear.
  set (y := 400 * a + 100 * b + 4 * c + e).
  assert (M4 : y mod 4 = e) by (subst y; mod_is (100 * a + 25 * b + c)).
  assert (M100 : y mod 100 = 4 * c + e) by (subst y; mod_is (4 * a + b)).
  assert (M400 : y mod 400 = 100 * b + 4 * c + e) by (subst y; mod_is a).
  rewrite M4, M100, M400. lia.
Qed.

Lemma days_before_year_succ (y : Z) :
  days_before_year (y + 1) = days_before_year y + year_length y.
Proof.
  unfold year_length.
  destruct (year_digits y) as (a & b & c & e & -> & Hb & Hc & He).
  rewrite isLeapYear_digits by assumption.
  unfold days_before_year. cbv zeta.
  set (y := 400 * a + 100 * b + 4 * c + e).
  replace (y + 1 - 1) with y by lia.
  assert (D4 : y / 4 = 100 * a + 25 * b + c)
    by (subst y; div_is (e)).
  assert (D100 : y / 100 = 4 * a + b)
    by (subst y; div_is (4 * c + e)).
  assert (D400 : y / 400 = a)
    by (subst y; div_is (100 * b + 4 * c + e)).
  rewrite D4, D100, D400.
  assert (P4 : (y - 1) / 4 = 100 * a + 25 * b + c - (if e =? 0 then 1 else 0))
    by (subst y; destruct (Z.eqb_spec e 0);
        [div_is 3 | div_is (e - 1)]).
  assert (P100 : (y - 1) / 100 =
                 4 * a + b - (if (e =? 0) && (c =? 0) then 1 else 0))
    by (subst y; destruct (Z.eqb_spec e 0), (Z.eqb_spec c 0); cbn [andb];
        [div_is 99 | div_is (4 * c + e - 1) ..]).
  assert (P400 : (y - 1) / 400 =
                 a - (if (e =? 0) && (c =? 0) && (b =? 0) then 1 else 0))
    by (subst y; destruct (Z.eqb_spec e 0), (Z.eqb_spec c 0), (Z.eqb_spec b 0);
        cbn [andb]; [div_is 399 | div_is (100 * b + 4 * c + e - 1) ..]).
  rewrite P4, P100, P400.
  destruct (e =? 0), (c =? 0), (b =? 0); cbn [andb orb negb]; lia.
Qed.

Lemma days_before_year_mono (y y' : Z) :
  y <= y' -> days_before_year y <= days_before_year y'.
Proof.
  intros H. pattern y'. apply Z.le_ind with (n := y); [| lia | | exact H].
  - intros u v ->. reflexivity.
  - intros m _ IH. rewrite <- Z.add_1_r, days_before_year_succ.
    unfold year_length. destruct (isLeapYear m); lia.
Qed.

(** [year_split] finds the year whose days contain [n]. *)
Lemma year_split_sound (n : Z) :
  let '(y, yd) := year_split n in
  n = days_before_year y + yd /\ 0 <= yd < year_length y.
Proof.
  unfold year_split, year_length, days_before_year.
  cbv zeta.
  set (q400 := n / 146097). set (r400 := n mod 146097).
  assert (Hn : n = 146097 * q400 + r400 /\ 0 <= r400 < 146097)
    by (subst q400 r400; dlia).
  clearbody q400 r400.
  set (q100 := Z.min (r400 / 36524) 3).
  assert (Hq100 : 0 <= q100 <= 3 /\ 36524 * q100 <= r400 /\
                  (q100 < 3 -> r400 < 36524 * q100 + 36524))
    by (subst q100; dlia).
  clearbody q100.
  set (r100 := r400 - 36524 * q100) in *.
  assert (Hr100 : r400 = 36524 * q100 + r100) by (subst r100; lia).
  clearbody r100.
  set (q4 := r100 / 1461). set (r4 := r100 mod 1461).
  assert (H4 : r100 = 1461 * q4 + r4 /\ 0 <= r4 < 1461)
    by (subst q4 r4; dlia).
  clearbody q4 r4.
  set (q1 := Z.min (r4 / 365) 3).
  assert (Hq1 : 0 <= q1 <= 3 /\ 365 * q1 <= r4 /\ (q1 < 3 -> r4 < 365 * q1 + 365))
    by (subst q1; dlia).
  clearbody q1.
  assert (Hq4 : 0 <= q4 <= 24) by lia.
  set (y := 400 * q400 + 100 * q100 + 4 * q4 + q1 + 1).
  assert (Hy : y - 1 = 400 * q400 + 100 * q100 + 4 * q4 + q1) by (subst y; lia).
  assert (D4 : (y - 1) / 4 = 100 * q400 + 25 * q100 + q4)
    by (rewrite Hy; div_is q1).
  assert (D100 : (y - 1) / 100 = 4 * q400 + q100)
    by (rewrite Hy; div_is (4 * q4 + q1)).
  assert (D400 : (y - 1) / 400 = q400)
    by (rewrite Hy; div_is (100 * q100 + 4 * q4 + q1)).
  rewrite D4, D100, D400.
  split; [lia|].
  subst y.
  replace (400 * q400 + 100 * q100 + 4 * q4 + q1 + 1)
    with (400 * q400 + 100 * q100 + 4 * q4 + (q1 + 1)) by lia.
  assert (q1 < 3 \/ q1 = 3) as [C|C] by lia.
  - rewrite isLeapYear_digits by lia.
    destruct (Z.eqb_spec (q1 + 1) 0); [lia|]. cbn [andb]. lia.
  - subst q1.
    assert (q4 < 24 \/ q4 = 24) as [C4|C4] by lia.
    + replace (400 * q400 + 100 * q100 + 4 * q4 + (3 + 1))
        with (400 * q400 + 100 * q100 + 4 * (q4 + 1) + 0) by lia.
      rewrite isLeapYear_digits by lia.
      destruct (Z.eqb_spec (q4 + 1) 0); [lia|]. cbn. lia.
    + subst q4.
      assert (q100 < 3 \/ q100 = 3) as [C1|C1] by lia.
      * replace (400 * q400 + 100 * q100 + 4 * 24 + (3 + 1))
          with (400 * q400 + 100 * (q100 + 1) + 4 * 0 + 0) by lia.
        rewrite isLeapYear_digits by lia.
        destruct (Z.eqb_spec (q100 + 1) 0); [lia|]. cbn. lia.
      * subst q100.
        replace (400 * q400 + 100 * 3 + 4 * 24 + (3 + 1))
          with (400 * (q400 + 1) + 100 * 0 + 4 * 0 + 0) by lia.
        rewrite isLeapYear_digits by lia. cbn. lia.
Qed.

Lemma year_split_unique (n y : Z) :
  days_before_year y <= n < days_before_year (y + 1) ->
  year_split n = (y, n - days_before_year y).
Proof.
  intros H.
  pose proof (year_split_sound n) as S.
  destruct (year_split n) as [y' yd].
  destruct S as [S1 S2].
  assert (y' = y).
  { destruct (Z.lt_trichotomy y' y) as [C|[C|C]]; [|assumption|].
    - pose proof (days_before_year_mono (y' + 1) y ltac:(lia)).
      pose proof (days_before_year_succ y'). lia.
    - pose proof (days_before_year_mono (y + 1) y' ltac:(lia)). lia. }
  subst y'. f_equal. lia.
Qed.

Lemma month_length_pos (leap : bool) (m : Z) :
  1 <= m <= 12 -> 28 <= month_length leap m <= 31.
Proof. intros H. each_month H; destruct leap; eval_months; lia. Qed.

Lemma days_before_month_bound (leap : bool) (m : Z) :
  1 <= m <= 12 ->
  0 <= days_before_month leap m /\
  days_before_month leap m + month_length leap m <= (if leap then 366 else 365).
Proof. intros H. each_month H; destruct leap; eval_months; lia. Qed.

Lemma split_yday_sound (leap : bool) (yd : Z) :
  0 <= yd < (if leap then 366 else 365) ->
  let '(mon, md) := split_yday (map (month_length leap) months) 0 yd in
  0 <= mon <= 11 /\ 0 <= md < month_length leap (mon + 1) /\
  yd = days_before_month leap (mon + 1) + md.
Proof.
  intros H. destruct leap;
  cbn [split_yday map months month_length];
  case_ltb; cbv beta iota zeta;
  repeat match goal with
         | |- context [month_length ?l ?m] =>
             let v := eval vm_compute in m in
             change m with v
         end; eval_months; lia.
Qed.

Lemma split_yday_unique (leap : bool) (m d : Z) :
  1 <= m <= 12 -> 1 <= d <= month_length leap m ->
  split_yday (map (month_length leap) months) 0
             (days_before_month leap m + (d - 1)) = (m - 1, d - 1).
Proof.
  intros Hm Hd.
  each_month Hm; destruct leap; 
  cbn [split_yday map months month_length] in Hd |- *; eval_months;
  case_ltb; try lia; f_equal; lia.
Qed.

(** What [getDateTime] returns, field by field. *)
Lemma getDateTime_fields (date : Z) :
  let t := getDateTime date in
  1 <= getMonth t <= 12 /\
  1 <= getDay t <= getMaxDayOfMonth (getYear t) (getMonth t) /\
  daysSinceEpochFromDate (getYear t) (getMonth t) (getDay t) = date /\
  tm_yday t = date - daysSinceEpochFromDate (getYear t) 1 1 /\
  0 <= tm_yday t < year_length (getYear t) /\
  tm_wday t = (date + 4) mod 7.
Proof.
  unfold getDateTime.
  pose proof (year_split_sound (date + kEpochOffset)) as S.
  destruct (year_split (date + kEpochOffset)) as [y yd].
  destruct S as [S1 S2].
  unfold getMaxDayOfMonth, year_length in *.
  pose proof (split_yday_sound (isLeapYear y) yd S2) as M.
  change (map (fun m => month_length (isLeapYear y) m) months)
    with (map (month_length (isLeapYear y)) months).
  destruct (split_yday (map (month_length (isLeapYear y)) months) 0 yd)
    as [mon md].
  destruct M as (M1 & M2 & M3).
  cbv zeta. unfold getMonth, getDay, getYear, daysSinceEpochFromDate.
  cbn [tm_mday tm_mon tm_year tm_wday tm_yday].
  replace (1900 + (y - 1900)) with y by lia.
  replace (1 + mon) with (mon + 1) by lia.
  change (days_before_month (isLeapYear y) 1) with 0.
  repeat split; try lia.
Qed.

(** [getDateTime] inverts [daysSinceEpochFromDate] on calendar days. *)
Lemma getDateTime_daysSinceEpochFromDate (y m d : Z) :
  1 <= m <= 12 -> 1 <= d <= getMaxDayOfMonth y m ->
  getDateTime (daysSinceEpochFromDate y m d) =
  {| tm_mday := d;
     tm_mon := m - 1;
     tm_year := y - 1900;
     tm_wday := (daysSinceEpochFromDate y m d + 4) mod 7;
     tm_yday := days_before_month (isLeapYear y) m + (d - 1) |}.
Proof.
  intros Hm Hd. unfold getMaxDayOfMonth in Hd.
  pose proof (days_before_month_bound (isLeapYear y) m Hm) as B.
  unfold getDateTime.
  rewrite (year_split_unique _ y).
  - replace (daysSinceEpochFromDate y m d + kEpochOffset - days_before_year y)
      with (days_before_month (isLeapYear y) m + (d - 1))
      by (unfold daysSinceEpochFromDate; lia).
    change (map (getMaxDayOfMonth y) months)
      with (map (month_length (isLeapYear y)) months).
    rewrite split_yday_unique by assumption.
    f_equal. lia.
  - rewrite days_before_year_succ. unfold daysSinceEpochFromDate, year_length.
    destruct (isLeapYear y); lia.
Qed.

(** ** Ranges of the calendar functions *)

Lemma days_before_month_range (leap : bool) (m : Z) :
  0 <= days_before_month leap m <= 372.
Proof.
  unfold days_before_month.
  assert (G : forall l,
             Forall (fun k => 1 <= k <= 12) l ->
             0 <= fold_right (fun k acc => if k <? m then month_length leap k + acc
                                           else acc) 0 l
             <= 31 * Z.of_nat (List.length l)).
  { induction 1 as [|k l Hk _ IH]; cbn [fold_right List.length]; [lia|].
    pose proof (month_length_pos leap k Hk).
    destruct (k <? m); lia. }
  apply (G months). unfold months. repeat constructor; lia.
Qed.

Lemma days_before_year_range (y : Z) :
  in_int32 y -> -784400000000 <= days_before_year y <= 784400000000.
Proof.
  unfold in_int32, INT32_MIN, INT32_MAX, days_before_year. intros H.
  cbv zeta. dlia.
Qed.

Lemma daysSinceEpochFromDate_int64 (y m d : Z) :
  in_int32 y -> in_int32 d ->
  to_int64 (daysSinceEpochFromDate y m d) = daysSinceEpochFromDate y m d.
Proof.
  intros Hy Hd. apply wrap_small.
  pose proof (days_before_year_range y Hy).
  pose proof (days_before_month_range (isLeapYear y) m).
  unfold daysSinceEpochFromDate, kEpochOffset, in_int32, INT32_MIN, INT32_MAX in *.
  lia.
Qed.

(** The overflow test [x == (int32_t)x] shared by the adapters. *)
Lemma overflow_check (x : Z) : (x =? to_int32 x) = in_int32b x.
Proof.
  destruct (in_int32b x) eqn:E.
  - apply in_int32b_spec in E. rewrite to_int32_small by assumption.
    apply Z.eqb_refl.
  - apply Z.eqb_neq. intros C.
    assert (in_int32 x) by (apply to_int32_fixed; congruence).
    apply in_int32b_spec in H. congruence.
Qed.

(** ** Dates and their years *)

Lemma daysSinceEpochFromDate_jan1 (y : Z) :
  daysSinceEpochFromDate y 1 1 = days_before_year y - kEpochOffset.
Proof.
  unfold daysSinceEpochFromDate.
  change (days_before_month (isLeapYear y) 1) with 0. lia.
Qed.

Lemma daysSinceEpochFromDate_next_year (y : Z) :
  daysSinceEpochFromDate (y + 1) 1 1
  = daysSinceEpochFromDate y 1 1 + year_length y.
Proof. rewrite !daysSinceEpochFromDate_jan1, days_before_year_succ. lia. Qed.

(** A date between two New Year's Days lies in the year of the first. *)
Lemma getDateTime_in_year (x y : Z) :
  daysSinceEpochFromDate y 1 1 <= x < daysSinceEpochFromDate (y + 1) 1 1 ->
  getYear (getDateTime x) = y /\
  tm_yday (getDateTime x) = x - daysSinceEpochFromDate y 1 1.
Proof.
  rewrite !daysSinceEpochFromDate_jan1. intros H.
  unfold getDateTime.
  rewrite (year_split_unique _ y) by lia.
  destruct (split_yday _ _ _) as [mon md].
  unfold getYear. cbn [tm_year tm_yday]. lia.
Qed.

Lemma date_in_its_year (date : Z) :
  let y := getYear (getDateTime date) in
  daysSinceEpochFromDate y 1 1 <= date < daysSinceEpochFromDate (y + 1) 1 1.
Proof.
  intros y. subst y.
  pose proof (getDateTime_fields date) as (_ & _ & _ & Y & B & _).
  rewrite daysSinceEpochFromDate_next_year. lia.
Qed.

(** Years of the dates a 32-bit day-count reaches. *)
Lemma getYear_range (date : Z) :
  in_int32 date -> -5877641 <= getYear (getDateTime date) <= 5881580.
Proof.
  unfold in_int32, INT32_MIN, INT32_MAX. intros H.
  pose proof (date_in_its_year date) as B. cbv zeta in B.
  rewrite daysSinceEpochFromDate_next_year, daysSinceEpochFromDate_jan1 in B.
  set (y := getYear (getDateTime date)) in *. clearbody y.
  split.
  - destruct (Z.le_gt_cases (-5877641) y) as [|C]; [assumption|exfalso].
    pose proof (days_before_year_mono (y + 1) (-5877641) ltac:(lia)) as M.
    rewrite days_before_year_succ in M.
    vm_compute (days_before_year (-5877641)) in M.
    unfold kEpochOffset in B. lia.
  - destruct (Z.le_gt_cases y 5881580) as [|C]; [assumption|exfalso].
    pose proof (days_before_year_mono 5881581 y ltac:(lia)) as M.
    vm_compute (days_before_year 5881581) in M.
    unfold kEpochOffset in B. lia.
Qed.

(** The narrowing conversions leave the fields of a date alone. *)
Lemma fields_in_int32 (date : Z) :
  in_int32 date ->
  let t := getDateTime date in
  in_int32 (getYear t) /\ in_int32 (getMonth t) /\ in_int32 (getDay t) /\
  1 <= getDay t <= 31.
Proof.
  intros H t. subst t.
  pose proof (getYear_range date H).
  pose proof (getDateTime_fields date) as (M & Dy & _).
  unfold getMaxDayOfMonth in Dy.
  pose proof (month_length_pos (isLeapYear (getYear (getDateTime date))) _ M).
  unfold in_int32, INT32_MIN, INT32_MAX. lia.
Qed.

Lemma to_int64_small (x : Z) : in_int32 x -> to_int64 x = x.
Proof.
  unfold in_int32, INT32_MIN, INT32_MAX. intros H.
  apply wrap_small. lia.
Qed.

(** ** [make_date] *)

(** C4. [make_date] raises the overflow error exactly when the true
    day-count does not fit 32 bits; otherwise it returns that count, never a
    truncated one.  [make_date(2147483647, 12, 31)] raises it. *)
Theorem C4_make_date_overflow (year month day : Z) :
  in_int32 year -> in_int32 month -> in_int32 day ->
  let days := daysSinceEpochFromDate year month day in
  (MakeDateFunction.call year month day
   = Raise (IntegerOverflow "make_date" [year; month; day])
   <-> ~ in_int32 days) /\
  (in_int32 days -> MakeDateFunction.call year month day = Ok days) /\
  (forall r, MakeDateFunction.call year month day = Ok r -> r = days) /\
  MakeDateFunction.call 2147483647 12 31
  = Raise (IntegerOverflow "make_date" [2147483647; 12; 31]).
Proof.
  intros Hy Hm Hd days.
  unfold MakeDateFunction.call.
  rewrite daysSinceEpochFromDate_int64 by assumption.
  fold days. rewrite overflow_check.
  destruct (in_int32b days) eqn:E.
  - apply in_int32b_spec in E.
    rewrite to_int32_small by assumption.
    repeat split; try congruence; try discriminate; try tauto.
  - assert (N : ~ in_int32 days)
      by (rewrite <- in_int32b_spec; congruence).
    repeat split; try congruence; try discriminate; try tauto.
Qed.

Lemma C4_make_date_overflow_witness :
  in_int32 2021 /\ in_int32 2 /\ in_int32 28 /\
  MakeDateFunction.call 2021 2 28 = Ok 18686.
Proof.
  assert (R : in_int32 2021 /\ in_int32 2 /\ in_int32 28)
    by (unfold in_int32, INT32_MIN, INT32_MAX; lia).
  destruct R as (Hy & Hm & Hd).
  split; [exact Hy|]. split; [exact Hm|]. split; [exact Hd|].
  destruct (C4_make_date_overflow 2021 2 28 Hy Hm Hd) as (_ & E & _).
  apply E. vm_compute. split; discriminate.
Defined.

(** ** [last_day] *)

Lemma LastDayFunction_fields (date : Z) :
  in_int32 date ->
  to_int32 (LastDayFunction.getYear (getDateTime date))
  = getYear (getDateTime date) /\
  to_int32 (LastDayFunction.getMonth (getDateTime date))
  = getMonth (getDateTime date).
Proof.
  intros H. destruct (fields_in_int32 date H) as (Y & M & _).
  unfold LastDayFunction.getYear, LastDayFunction.getMonth.
  fold (getYear (getDateTime date)). fold (getMonth (getDateTime date)).
  rewrite !to_int64_small by assumption.
  rewrite !to_int32_small by assumption. split; reflexivity.
Qed.

(** What [last_day] computes, on the fields of its argument. *)
Lemma LastDayFunction_call_fields (date : Z) :
  in_int32 date ->
  let y := getYear (getDateTime date) in
  let m := getMonth (getDateTime date) in
  let last := daysSinceEpochFromDate y m (getMaxDayOfMonth y m) in
  LastDayFunction.call date
  = if in_int32b last then Ok last
    else Raise (IntegerOverflow "last_day" [y; m; m]).
Proof.
  intros H y m last.
  destruct (LastDayFunction_fields date H) as (Ey & Em).
  destruct (fields_in_int32 date H) as (Y & M & _).
  pose proof (getDateTime_fields date) as (Mr & _).
  unfold LastDayFunction.call, LastDayFunction.call_with.
  rewrite Ey, Em. fold y m.
  pose proof (month_length_pos (isLeapYear y) m Mr) as Lp.
  fold (getMaxDayOfMonth y m) in Lp.
  rewrite (to_int32_small (getMaxDayOfMonth y m))
    by (unfold in_int32, INT32_MIN, INT32_MAX; lia).
  rewrite daysSinceEpochFromDate_int64.
  - fold last. rewrite overflow_check.
    destruct (in_int32b last) eqn:E; [|reflexivity].
    apply in_int32b_spec in E. rewrite to_int32_small by assumption.
    reflexivity.
  - exact Y.
  - unfold in_int32, INT32_MIN, INT32_MAX. lia.
Qed.

(** C8. [last_day] returns the last day of the month of its argument:
    the returned date has the year and the month of the argument, its day
    is the length of that month (28 or 29 in February by the leap rule) and
    no date of that month comes after it.  When that date is no Date the
    call raises the overflow error.  The two examples of February hold. *)
Theorem C8_last_day (date : Z) :
  in_int32 date ->
  let y := getYear (getDateTime date) in
  let m := getMonth (getDateTime date) in
  let lastDay := getMaxDayOfMonth y m in
  let last := daysSinceEpochFromDate y m lastDay in
  (m = 2 -> lastDay = if isLeapYear y then 29 else 28) /\
  (in_int32 last -> LastDayFunction.call date = Ok last) /\
  (~ in_int32 last ->
   LastDayFunction.call date = Raise (IntegerOverflow "last_day" [y; m; m])) /\
  getYear (getDateTime last) = y /\
  getMonth (getDateTime last) = m /\
  getDay (getDateTime last) = lastDay /\
  (forall d, getYear (getDateTime d) = y -> getMonth (getDateTime d) = m ->
             d <= last) /\
  and_then (MakeDateFunction.call 2021 2 10) LastDayFunction.call
  = MakeDateFunction.call 2021 2 28 /\
  and_then (MakeDateFunction.call 2020 2 10) LastDayFunction.call
  = MakeDateFunction.call 2020 2 29.
Proof.
  intros H y m lastDay last.
  pose proof (getDateTime_fields date) as (Mr & _). fold m in Mr.
  pose proof (month_length_pos (isLeapYear y) m Mr) as Lp.
  assert (R : getDateTime last
              = {| tm_mday := lastDay; tm_mon := m - 1; tm_year := y - 1900;
                   tm_wday := (last + 4) mod 7;
                   tm_yday := days_before_month (isLeapYear y) m + (lastDay - 1) |}).
  { apply getDateTime_daysSinceEpochFromDate; [exact Mr|].
    subst lastDay. unfold getMaxDayOfMonth in *. lia. }
  split; [intros ->; reflexivity|].
  split.
  { intros F. rewrite LastDayFunction_call_fields by assumption.
    fold y m lastDay last. apply in_int32b_spec in F. rewrite F. reflexivity. }
  split.
  { intros F. rewrite LastDayFunction_call_fields by assumption.
    fold y m lastDay last.
    destruct (in_int32b last) eqn:E; [|reflexivity].
    apply in_int32b_spec in E. contradiction. }
  rewrite R. unfold getYear, getMonth, getDay.
  cbn [tm_year tm_mon tm_mday].
  split; [lia|]. split; [lia|]. split; [reflexivity|].
  split.
  { intros d Ey Em.
    pose proof (getDateTime_fields d) as (_ & Dd & Ed & _).
    cbv zeta in Dd, Ed. unfold getYear, getMonth in Dd, Ed.
    rewrite Ey, Em in Dd, Ed. fold lastDay in Dd.
    rewrite <- Ed. subst last. unfold daysSinceEpochFromDate. lia. }
  split; vm_compute; reflexivity.
Qed.

Lemma C8_last_day_witness :
  in_int32 18668 /\ LastDayFunction.call 18668 = Ok 18686.
Proof.
  assert (R : in_int32 18668) by (unfold in_int32, INT32_MIN, INT32_MAX; lia).
  split; [exact R|].
  destruct (C8_last_day 18668 R) as (_ & E & _).
  apply E. vm_compute. split; discriminate.
Defined.

(** C10. Two dates for which [getYear] and [getMonth] agree have the same
    [last_day], be it a date or the error raised, whatever the calendar
    helpers compute. *)
Theorem C10_last_day_same_month
    (getDateTime : Z -> tm) (getMaxDayOfMonth : Z -> Z -> Z)
    (daysSinceEpochFromDate : Z -> Z -> Z -> Z) (d1 d2 : Z) :
  LastDayFunction.getYear (getDateTime d1)
  = LastDayFunction.getYear (getDateTime d2) ->
  LastDayFunction.getMonth (getDateTime d1)
  = LastDayFunction.getMonth (getDateTime d2) ->
  LastDayFunction.call_with getDateTime getMaxDayOfMonth
                            daysSinceEpochFromDate d1
  = LastDayFunction.call_with getDateTime getMaxDayOfMonth
                              daysSinceEpochFromDate d2.
Proof.
  intros Ey Em. unfold LastDayFunction.call_with.
  rewrite Ey, Em. reflexivity.
Qed.

Lemma C10_last_day_same_month_witness :
  LastDayFunction.getYear (getDateTime 18659)
  = LastDayFunction.getYear (getDateTime 18685) /\
  LastDayFunction.getMonth (getDateTime 18659)
  = LastDayFunction.getMonth (getDateTime 18685) /\
  LastDayFunction.call 18659 = LastDayFunction.call 18685.
Proof.
  assert (Ey : LastDayFunction.getYear (getDateTime 18659)
               = LastDayFunction.getYear (getDateTime 18685)) by reflexivity.
  assert (Em : LastDayFunction.getMonth (getDateTime 18659)
               = LastDayFunction.getMonth (getDateTime 18685)) by reflexivity.
  split; [exact Ey|]. split; [exact Em|].
  exact (C10_last_day_same_month getDateTime getMaxDayOfMonth
           daysSinceEpochFromDate 18659 18685 Ey Em).
Defined.

(** ** [add_months] *)

(** The year carry of [add_months] is the floor of the quotient by 12. *)
Lemma yearOffset_floor (monthAdded : Z) :
  Z.quot (if monthAdded >=? 0 then monthAdded else monthAdded - 11) 12
  = monthAdded / 12.
Proof.
  rewrite Z.geb_leb. destruct (Z.leb_spec 0 monthAdded) as [P|N].
  - apply Z.quot_div_nonneg; lia.
  - replace (monthAdded - 11) with (- (11 - monthAdded)) by lia.
    rewrite Z.quot_opp_l by lia.
    rewrite Z.quot_div_nonneg by lia. dlia.
Qed.

(** What [add_months] computes, on the fields of its argument. *)
Lemma AddMonthsFunction_call_fields (date numMonths : Z) :
  in_int32 date -> in_int32 numMonths ->
  let year := getYear (getDateTime date) in
  let month := getMonth (getDateTime date) in
  let day := getDay (getDateTime date) in
  let year' := year + (month - 1 + numMonths) / 12 in
  let month' := (month - 1 + numMonths) mod 12 + 1 in
  let day' := if getMaxDayOfMonth year' month' <? day
              then getMaxDayOfMonth year' month' else day in
  let sum := daysSinceEpochFromDate year' month' day' in
  AddMonthsFunction.call date numMonths
  = if in_int32b sum then Ok sum
    else Raise (IntegerOverflow "add_months" [date; numMonths]).
Proof.
  intros Hd Hn year month day year' month' day' sum.
  destruct (fields_in_int32 date Hd) as (Y & M & Dy & Dr).
  pose proof (getYear_range date Hd) as Yr.
  pose proof (getDateTime_fields date) as (Mr & _).
  fold year in Y, Yr. fold month in M, Mr. fold day in Dy, Dr.
  unfold AddMonthsFunction.call.
  fold year month day.
  rewrite (to_int32_small year), (to_int32_small month), (to_int32_small day)
    by assumption.
  assert (A : to_int64 (month - 1 + numMonths) = month - 1 + numMonths).
  { apply wrap_small. unfold in_int32, INT32_MIN, INT32_MAX in *. lia. }
  rewrite A, yearOffset_floor.
  set (ma := month - 1 + numMonths) in *.
  assert (Q : -178956971 <= ma / 12 <= 178956971)
    by (unfold in_int32, INT32_MIN, INT32_MAX in *; subst ma; dlia).
  assert (Mo : ma - ma / 12 * 12 + 1 = month') by (subst month'; dlia).
  assert (Mb : 1 <= month' <= 12) by (subst month'; dlia).
  rewrite Mo.
  rewrite (to_int32_small month')
    by (unfold in_int32, INT32_MIN, INT32_MAX; lia).
  fold year'.
  assert (Yb : in_int32 year')
    by (unfold in_int32, INT32_MIN, INT32_MAX; subst year'; lia).
  rewrite (to_int64_small year') by assumption.
  rewrite (to_int32_small year') by assumption.
  fold day'.
  pose proof (month_length_pos (isLeapYear year') month' Mb) as Lp.
  fold (getMaxDayOfMonth year' month') in Lp.
  assert (Db : 1 <= day' <= 31)
    by (subst day'; destruct (Z.ltb_spec (getMaxDayOfMonth year' month') day); lia).
  rewrite daysSinceEpochFromDate_int64
    by (try assumption; unfold in_int32, INT32_MIN, INT32_MAX; lia).
  fold sum. rewrite overflow_check.
  destruct (in_int32b sum) eqn:E; [|reflexivity].
  apply in_int32b_spec in E. rewrite to_int32_small by assumption.
  reflexivity.
Qed.

(** C2. When the resulting date fits 32 bits, [add_months] returns the
    date of year [year + floor((month - 1 + n) / 12)], of month
    [(month - 1 + n) mod 12 + 1] and of the original day, lowered to the
    length of that month when it exceeds it; the day of the returned date
    never exceeds the length of its month.  One month after 2021-01-31 is
    2021-02-28. *)
Theorem C2_add_months (date numMonths : Z) :
  in_int32 date -> in_int32 numMonths ->
  let year := getYear (getDateTime date) in
  let month := getMonth (getDateTime date) in
  let day := getDay (getDateTime date) in
  let year' := year + (month - 1 + numMonths) / 12 in
  let month' := (month - 1 + numMonths) mod 12 + 1 in
  let day' := if getMaxDayOfMonth year' month' <? day
              then getMaxDayOfMonth year' month' else day in
  let sum := daysSinceEpochFromDate year' month' day' in
  in_int32 sum ->
  AddMonthsFunction.call date numMonths = Ok sum /\
  getYear (getDateTime sum) = year' /\
  getMonth (getDateTime sum) = month' /\
  getDay (getDateTime sum) = day' /\
  getDay (getDateTime sum)
  <= getMaxDayOfMonth (getYear (getDateTime sum)) (getMonth (getDateTime sum)) /\
  and_then (MakeDateFunction.call 2021 1 31)
           (fun d => AddMonthsFunction.call d 1)
  = MakeDateFunction.call 2021 2 28.
Proof.
  intros Hd Hn year month day year' month' day' sum F.
  pose proof (getDateTime_fields date) as (Mr & Dr & _).
  fold year month day in Mr, Dr.
  assert (Mb : 1 <= month' <= 12) by (subst month'; dlia).
  pose proof (month_length_pos (isLeapYear year') month' Mb) as Lp.
  fold (getMaxDayOfMonth year' month') in Lp.
  assert (Db : 1 <= day' <= getMaxDayOfMonth year' month')
    by (subst day'; destruct (Z.ltb_spec (getMaxDayOfMonth year' month') day); lia).
  pose proof (getDateTime_daysSinceEpochFromDate year' month' day' Mb Db) as R.
  fold sum in R.
  split.
  { rewrite AddMonthsFunction_call_fields by assumption.
    fold year month day year' month' day' sum.
    apply in_int32b_spec in F. rewrite F. reflexivity. }
  rewrite R. unfold getYear, getMonth, getDay. cbn [tm_year tm_mon tm_mday].
  replace (1900 + (year' - 1900)) with year' by lia.
  replace (1 + (month' - 1)) with month' by lia.
  split; [reflexivity|]. split; [reflexivity|]. split; [reflexivity|].
  split; [lia|].
  vm_compute. reflexivity.
Qed.

Lemma C2_add_months_witness :
  in_int32 18658 /\ in_int32 1 /\
  AddMonthsFunction.call 18658 1 = Ok 18686.
Proof.
  assert (R : in_int32 18658 /\ in_int32 1)
    by (unfold in_int32, INT32_MIN, INT32_MAX; lia).
  destruct R as (Hd & Hn).
  split; [exact Hd|]. split; [exact Hn|].
  assert (F : in_int32 18686) by (unfold in_int32, INT32_MIN, INT32_MAX; lia).
  destruct (C2_add_months 18658 1 Hd Hn F) as (E & _).
  exact E.
Defined.

(** ** [date_add], [date_sub], [date_diff] *)

(** C9. For an offset above [INT32_MIN], [date_sub] is [date_add] of the
    negated offset, whatever [addToDate] does. *)
Theorem C9_date_sub_is_date_add_negated
    (addToDate : Z -> DateTimeUnit -> Z -> Z) (date value : Z) :
  INT32_MIN < value <= INT32_MAX ->
  DateSubFunction.call_with addToDate date value
  = DateAddFunction.call_with addToDate date (- value).
Proof.
  intros H. unfold DateSubFunction.call_with, DateAddFunction.call_with.
  destruct (Z.gtb_spec value INT32_MIN) as [_|C]; [|lia].
  rewrite to_int32_small
    by (unfold in_int32, INT32_MIN, INT32_MAX in *; lia).
  reflexivity.
Qed.

Lemma C9_date_sub_is_date_add_negated_witness :
  INT32_MIN < 7 <= INT32_MAX /\
  DateSubFunction.call 18686 7 = DateAddFunction.call 18686 (- 7).
Proof.
  assert (R : INT32_MIN < 7 <= INT32_MAX) by (unfold INT32_MIN, INT32_MAX; lia).
  split; [exact R|].
  exact (C9_date_sub_is_date_add_negated DateTimeImpl.addToDate 18686 7 R).
Defined.

(** C3. [date_sub] shifts the date by [- value] days, reduced to 32 bits,
    and so exactly whenever the shifted date is a Date.  None of the
    [int32_t] operations of its body overflows, whatever [addToDate] does:
    the checked run always has a value, the value of [call].  Above
    [INT32_MIN] it is one [addToDate] of [- value]; for [INT32_MIN] it is
    the two steps [addToDate] of [2147483647] and then of [1], together
    [2147483648] days.  It is a total function: it neither raises nor
    returns null. *)
Theorem C3_date_sub_shifts (date value : Z) :
  in_int32 date -> in_int32 value ->
  (forall addToDate,
     DateSubFunction.call_checked addToDate date value
     = Some (DateSubFunction.call_with addToDate date value)) /\
  (forall addToDate,
     INT32_MIN < value ->
     DateSubFunction.call_with addToDate date value
     = addToDate date kDay (- value)) /\
  (forall addToDate,
     DateSubFunction.call_with addToDate date INT32_MIN
     = addToDate (addToDate date kDay INT32_MAX) kDay 1) /\
  DateSubFunction.call date value = to_int32 (date - value) /\
  in_int32 (DateSubFunction.call date value) /\
  (in_int32 (date - value) -> DateSubFunction.call date value = date - value) /\
  DateSubFunction.call date INT32_MIN = to_int32 (date + 2147483648) /\
  (date < 0 ->
   in_int32 (date + 2147483647) /\
   DateSubFunction.call date INT32_MIN = date + 2147483648).
Proof.
  intros Hd Hv.
  assert (Above : forall addToDate v,
            in_int32 v -> INT32_MIN < v ->
            DateSubFunction.call_with addToDate date v
            = addToDate date kDay (- v)).
  { intros f v Iv G. unfold DateSubFunction.call_with.
    destruct (Z.gtb_spec v INT32_MIN) as [_|C]; [|lia].
    rewrite (to_int32_small (0 - v))
      by (unfold in_int32, INT32_MIN, INT32_MAX in *; lia).
    reflexivity. }
  assert (AtMin : forall addToDate,
            DateSubFunction.call_with addToDate date INT32_MIN
            = addToDate (addToDate date kDay INT32_MAX) kDay 1).
  { intros f. reflexivity. }
  assert (Checked : forall addToDate,
            DateSubFunction.call_checked addToDate date value
            = Some (DateSubFunction.call_with addToDate date value)).
  { intros f.
    unfold DateSubFunction.call_checked, DateSubFunction.call_with,
      checked_int32.
    destruct (Z.gtb_spec value INT32_MIN) as [G|G].
    - assert (N : in_int32 (0 - value))
        by (unfold in_int32, INT32_MIN, INT32_MAX in *; lia).
      rewrite (to_int32_small _ N).
      apply in_int32b_spec in N. rewrite N. reflexivity.
    - reflexivity. }
  assert (E : forall v, in_int32 v ->
                DateSubFunction.call date v = to_int32 (date - v)).
  { intros v Iv. unfold DateSubFunction.call.
    assert (v = INT32_MIN \/ INT32_MIN < v) as [->|G]
      by (unfold in_int32, INT32_MIN, INT32_MAX in *; lia).
    - rewrite AtMin. unfold addToDate.
      rewrite to_int32_add_l. f_equal. unfold INT32_MIN, INT32_MAX. lia.
    - rewrite Above by assumption. unfold addToDate. f_equal; lia. }
  assert (Hmin : in_int32 INT32_MIN)
    by (unfold in_int32, INT32_MIN, INT32_MAX; lia).
  split; [exact Checked|].
  split; [intros f G; apply Above; assumption|].
  split; [exact AtMin|].
  split; [apply E, Hv|].
  split; [rewrite E by assumption; apply to_int32_range|].
  split; [intros F; rewrite E by assumption; apply to_int32_small, F|].
  split; [rewrite E by assumption; f_equal; unfold INT32_MIN; lia|].
  intros Neg.
  split; [unfold in_int32, INT32_MIN, INT32_MAX in *; lia|].
  rewrite E by assumption.
  replace (date - INT32_MIN) with (date + 2147483648)
    by (unfold INT32_MIN; lia).
  apply to_int32_small.
  unfold in_int32, INT32_MIN, INT32_MAX in *. lia.
Qed.

Lemma C3_date_sub_shifts_witness :
  in_int32 (-5) /\ in_int32 INT32_MIN /\
  DateSubFunction.call_checked addToDate (-5) INT32_MIN = Some 2147483643 /\
  DateSubFunction.call (-5) INT32_MIN = 2147483643.
Proof.
  assert (R : in_int32 (-5) /\ in_int32 INT32_MIN)
    by (unfold in_int32, INT32_MIN, INT32_MAX; lia).
  destruct R as (Hd & Hv).
  split; [exact Hd|]. split; [exact Hv|].
  destruct (C3_date_sub_shifts (-5) INT32_MIN Hd Hv)
    as (C & _ & _ & _ & _ & _ & _ & E).
  split; [exact (C addToDate)|].
  apply E. lia.
Defined.

(** C5. [date_diff] is the 32-bit difference of the two dates: the exact
    difference when that is representable, and otherwise the difference
    moved by [2^32] back into range.  It is a total function: it neither
    raises nor returns null. *)
Theorem C5_date_diff_wraps (endDate startDate : Z) :
  in_int32 endDate -> in_int32 startDate ->
  let diff := endDate - startDate in
  in_int32 (DateDiffFunction.call endDate startDate) /\
  (DateDiffFunction.call endDate startDate) mod 2 ^ 32 = diff mod 2 ^ 32 /\
  DateDiffFunction.call endDate startDate
  = (if diff >? INT32_MAX then diff - 2 ^ 32
     else if diff <? INT32_MIN then diff + 2 ^ 32
     else diff).
Proof.
  intros He Hs diff. unfold DateDiffFunction.call. fold diff.
  split; [apply to_int32_range|].
  split; [apply (wrap_congr 2147483648); lia|].
  unfold in_int32, INT32_MIN, INT32_MAX in *.
  assert (-4294967295 <= diff <= 4294967295) by lia.
  unfold to_int32, wrap.
  destruct (Z.gtb_spec diff 2147483647).
  - replace ((diff + 2147483648) mod (2 * 2147483648))
      with (diff + 2147483648 - 4294967296); [lia|].
    apply (Z.mod_unique _ _ 1); lia.
  - destruct (Z.ltb_spec diff (-2147483648)).
    + replace ((diff + 2147483648) mod (2 * 2147483648))
        with (diff + 2147483648 + 4294967296); [lia|].
      apply (Z.mod_unique _ _ (-1)); lia.
    + rewrite Z.mod_small by lia. lia.
Qed.

Lemma C5_date_diff_wraps_witness :
  in_int32 INT32_MAX /\ in_int32 (-1) /\
  DateDiffFunction.call INT32_MAX (-1) = INT32_MIN.
Proof.
  assert (R : in_int32 INT32_MAX /\ in_int32 (-1))
    by (unfold in_int32, INT32_MIN, INT32_MAX; lia).
  destruct R as (He & Hs).
  split; [exact He|]. split; [exact Hs|].
  destruct (C5_date_diff_wraps INT32_MAX (-1) He Hs) as (_ & _ & E).
  exact E.
Defined.

(** ** [unix_timestamp] *)

Section UnixTimestampFacts.

Context {DateTimeFormatter Timestamp : Type}.
Variable buildJodaDateTimeFormatter : string -> option DateTimeFormatter.
Variable getTimeZoneID : string -> Z.
Variable toGMT : Timestamp -> Z -> option Timestamp.
Variable getSeconds : Timestamp -> Z.
Variable parse : DateTimeFormatter -> string -> option (DateTimeResult Timestamp).

Lemma call_invalidFormat (st : ParseState DateTimeFormatter) (input format : string) :
  invalidFormat_ st = true ->
  call buildJodaDateTimeFormatter toGMT getSeconds parse st input format
  = (Null, st, []).
Proof. intros H. unfold call. rewrite H. reflexivity. Qed.

Lemma call_rows_invalidFormat (st : ParseState DateTimeFormatter)
    (rows : list (string * string)) :
  invalidFormat_ st = true ->
  call_rows buildJodaDateTimeFormatter toGMT getSeconds parse st rows
  = (map (fun _ => Null) rows, st, []).
Proof.
  intros H. induction rows as [|[input format] rows IH]; cbn [call_rows map].
  - reflexivity.
  - rewrite call_invalidFormat by assumption. rewrite IH. reflexivity.
Qed.

Lemma setTimezone_invalidFormat (name : string) (st : ParseState DateTimeFormatter) :
  invalidFormat_ (setTimezone getTimeZoneID name st) = invalidFormat_ st.
Proof. unfold setTimezone. destruct (negb (name =? ""))%string; reflexivity. Qed.

(** C6. With a constant format that does not compile, [initialize] tries
    the compilation once and records the failure; from then on every row
    evaluates to null, the adapter's state stays as it is and the format is
    never compiled again. *)
Theorem C6_invalid_format_is_cached (sessionTzName format : string)
    (rows : list (string * string)) :
  buildJodaDateTimeFormatter format = None ->
  let init :=
    initialize buildJodaDateTimeFormatter getTimeZoneID sessionTzName
               (Some format) constructed in
  snd init = [format] /\
  invalidFormat_ (fst init) = true /\
  call_rows buildJodaDateTimeFormatter toGMT getSeconds parse (fst init) rows
  = (map (fun _ => Null) rows, fst init, []).
Proof.
  intros H init.
  assert (I : invalidFormat_ (fst init) = true /\ snd init = [format]).
  { subst init. unfold initialize. rewrite H. cbn [fst snd].
    rewrite setTimezone_invalidFormat. split; reflexivity. }
  destruct I as [I1 I2].
  split; [exact I2|]. split; [exact I1|].
  apply call_rows_invalidFormat, I1.
Qed.

(** C7. The zone a parse result carries is used when it is not the
    sentinel [-1]; otherwise the session zone; and 0 (UTC) when the session
    names none.  Zone identifiers are the registry's small integers. *)
Theorem C7_timezone_resolution (st : ParseState DateTimeFormatter)
    (result : DateTimeResult Timestamp) :
  in_int16 (timezoneId result) ->
  (forall id, sessionTzID_ st = Some id -> in_int16 id) ->
  (timezoneId result <> -1 ->
   getTimezoneId st result = timezoneId result) /\
  (timezoneId result = -1 ->
   forall id, sessionTzID_ st = Some id -> getTimezoneId st result = id) /\
  (timezoneId result = -1 -> sessionTzID_ st = None ->
   getTimezoneId st result = 0) /\
  sessionTzID_ (setTimezone getTimeZoneID "" (@constructed DateTimeFormatter))
  = None /\
  (forall name, name <> ""%string ->
   sessionTzID_ (setTimezone getTimeZoneID name (@constructed DateTimeFormatter))
   = Some (getTimeZoneID name)).
Proof.
  intros Hr Hs. unfold getTimezoneId.
  split; [|split; [|split; [|split]]].
  - intros N. destruct (Z.eqb_spec (timezoneId result) (-1)); [contradiction|].
    cbn [negb]. apply to_int16_small, Hr.
  - intros E id Hid. rewrite E, Hid. cbn. apply to_int16_small, (Hs id Hid).
  - intros E N. rewrite E, N. reflexivity.
  - reflexivity.
  - intros name N. unfold setTimezone.
    destruct (String.eqb_spec name ""); [contradiction|]. reflexivity.
Qed.

End UnixTimestampFacts.

Lemma C6_invalid_format_is_cached_witness :
  let build := fun s : string => if (s =? "yyyy-QQ")%string then None else Some s in
  let parse := fun (_ : string) (_ : string) => Some (mk_DateTimeResult 0 (-1)) in
  let toGMT := fun (ts : Z) (_ : Z) => Some ts in
  build "yyyy-QQ"%string = None /\
  call_rows build toGMT (fun ts => ts) parse
    (fst (initialize build (fun _ => 0) "" (Some "yyyy-QQ"%string) constructed))
    [("2021-06-15"%string, "yyyy-QQ"%string); ("x"%string, "yyyy-QQ"%string)]
  = ([Null; Null],
     fst (initialize build (fun _ => 0) "" (Some "yyyy-QQ"%string) constructed),
     []).
Proof.
  intros build parse toGMT.
  split; [reflexivity|].
  destruct (C6_invalid_format_is_cached build (fun _ => 0) toGMT (fun ts => ts)
              parse "" "yyyy-QQ"
              [("2021-06-15"%string, "yyyy-QQ"%string); ("x"%string, "yyyy-QQ"%string)]
              eq_refl) as (_ & _ & E).
  exact E.
Defined.

Lemma C7_timezone_resolution_witness :
  let st := mk_ParseState (@None unit) (Some 1825) false false in
  let result := mk_DateTimeResult 0 (-1) in
  in_int16 (timezoneId result) /\
  getTimezoneId st result = 1825.
Proof.
  intros st result.
  assert (Hr : in_int16 (timezoneId result)) by (unfold in_int16; cbn; lia).
  assert (Hs : forall id, sessionTzID_ st = Some id -> in_int16 id).
  { intros id E. cbn in E. injection E as <-. unfold in_int16. lia. }
  split; [exact Hr|].
  destruct (C7_timezone_resolution (fun _ => 0) st result Hr Hs) as (_ & E & _).
  apply E; reflexivity.
Defined.

(** ** [week] *)

Lemma getDateTime_wday (date : Z) :
  tm_wday (getDateTime date) = (date + 4) mod 7.
Proof. pose proof (getDateTime_fields date) as (_ & _ & _ & _ & _ & W). exact W. Qed.

Lemma isoDayOfWeek_range (t : tm) :
  0 <= tm_wday t <= 6 ->
  1 <= Spec.isoDayOfWeek t <= 7 /\
  (Spec.isoDayOfWeek t - tm_wday t) mod 7 = 0.
Proof.
  intros H. unfold Spec.isoDayOfWeek.
  destruct (Z.eqb_spec (tm_wday t) 0) as [E|E].
  - rewrite E. split; [lia | reflexivity].
  - rewrite Z.sub_diag. split; [lia | reflexivity].
Qed.

(** [getWeek] on a well-formed [tm], in the vocabulary of the
    specification; the first Monday is that of the year of [t]. *)
Lemma getWeek_staged (t : tm) :
  0 <= tm_yday t <= 365 -> 0 <= tm_wday t <= 6 ->
  WeekFunction.getWeek t
  = Spec.staged_week t (1 + (Spec.mondayOfWeek t + 6) mod 7).
Proof.
  intros Hy Hw.
  destruct (isoDayOfWeek_range t Hw) as (Hi & _).
  unfold WeekFunction.getWeek, Spec.staged_week, kDaysInWeek.
  assert (I : (if negb (tm_wday t =? 0) then tm_wday t else 7)
              = Spec.isoDayOfWeek t)
    by (unfold Spec.isoDayOfWeek; destruct (tm_wday t =? 0); reflexivity).
  rewrite I.
  assert (Q : Z.quot (10 + (tm_yday t + 1) - Spec.isoDayOfWeek t) 7
              = Spec.base_estimate t)
    by (unfold Spec.base_estimate, Spec.dayOfYear; apply Z.quot_div_nonneg; lia).
  rewrite Q.
  assert (B : 0 <= Spec.base_estimate t <= 53)
    by (unfold Spec.base_estimate, Spec.dayOfYear; dlia).
  rewrite to_int32_small by (unfold in_int32, INT32_MIN, INT32_MAX; lia).
  assert (R : Z.rem (tm_wday t + 7 - 1) 7 = Spec.isoDayOfWeek t - 1).
  { rewrite Z.rem_mod_nonneg by lia. unfold Spec.isoDayOfWeek.
    destruct (Z.eqb_spec (tm_wday t) 0) as [E|E]; [rewrite E; reflexivity|].
    mod_is 1. }
  rewrite R.
  assert (Mo : tm_yday t + 1 - (Spec.isoDayOfWeek t - 1) = Spec.mondayOfWeek t)
    by reflexivity.
  rewrite Mo.
  replace (tm_year t + 1900 - 1) with (getYear t - 1) by (unfold getYear; lia).
  replace (tm_year t + 1900) with (getYear t) by (unfold getYear; lia).
  fold (year_length (getYear t)).
  cbv zeta.
  destruct (Z.eqb_spec (Spec.base_estimate t) 0) as [E0|E0];
    [|destruct (Z.eqb_spec (Spec.base_estimate t) 53) as [E53|E53];
      [rewrite E53|]; reflexivity].
  assert (M : -5 <= Spec.mondayOfWeek t <= -3)
    by (unfold Spec.base_estimate, Spec.mondayOfWeek, Spec.dayOfYear in *; dlia).
  rewrite Z.rem_mod_nonneg by lia.
  replace (Spec.mondayOfWeek t + 7 - 1) with (Spec.mondayOfWeek t + 6) by lia.
  reflexivity.
Qed.

(** The first Monday [getWeek] derives from a date is the first Monday of
    the year of that date. *)
Lemma firstMonday_of_date (date : Z) :
  1 + (Spec.mondayOfWeek (getDateTime date) + 6) mod 7
  = Spec.firstMonday (getYear (getDateTime date)).
Proof.
  pose proof (getDateTime_fields date) as (_ & _ & _ & Y & B & W).
  cbv zeta in Y, B, W.
  set (t := getDateTime date) in *.
  assert (Hw : 0 <= tm_wday t <= 6) by (rewrite W; dlia).
  destruct (isoDayOfWeek_range t Hw) as (Hi & Hc).
  unfold Spec.firstMonday. rewrite getDateTime_wday.
  unfold Spec.mondayOfWeek, Spec.dayOfYear.
  set (J := daysSinceEpochFromDate (getYear t) 1 1) in *.
  set (i := Spec.isoDayOfWeek t) in *.
  f_equal.
  rewrite Zminus_mod_idemp_r.
  pose proof (Z.div_mod (date + 4) 7 ltac:(lia)) as D1. rewrite <- W in D1.
  pose proof (Z.div_mod (i - tm_wday t) 7 ltac:(lia)) as D2. rewrite Hc in D2.
  set (q1 := (date + 4) / 7) in *. set (q2 := (i - tm_wday t) / 7) in *.
  replace (tm_yday t + 1 - (i - 1) + 6) with (8 - (J + 4) + (q1 - q2) * 7) by lia.
  rewrite Z.mod_add by lia. reflexivity.
Qed.

Lemma getDateTime_well_formed (date : Z) :
  0 <= tm_yday (getDateTime date) <= 365 /\ 0 <= tm_wday (getDateTime date) <= 6.
Proof.
  pose proof (getDateTime_fields date) as (_ & _ & _ & _ & B & W).
  cbv zeta in B, W. rewrite W. unfold year_length in B.
  destruct (isLeapYear _); split; try lia; dlia.
Qed.

(** [week] is the staged computation on the first Monday of the year of
    the date. *)
Lemma WeekFunction_call_staged (date : Z) :
  WeekFunction.call date
  = Spec.staged_week (getDateTime date)
                     (Spec.firstMonday (getYear (getDateTime date))).
Proof.
  destruct (getDateTime_well_formed date) as (Hy & Hw).
  unfold WeekFunction.call.
  rewrite getWeek_staged by assumption.
  rewrite firstMonday_of_date. reflexivity.
Qed.

(** The ISO week, by the year in which the Thursday of the week lies;
    [k] is that Thursday counted from New Year's Day of the date's year. *)
Lemma iso_week_cases (date : Z) :
  let t := getDateTime date in
  let k := tm_yday t - Spec.isoDayOfWeek t + 4 in
  Spec.iso_week date
  = if k <? 0 then (k + year_length (getYear t - 1)) / 7 + 1
    else if k <? year_length (getYear t) then k / 7 + 1
    else 1.
Proof.
  intros t k.
  pose proof (getDateTime_fields date) as (_ & _ & _ & Y & B & _).
  cbv zeta in Y, B. fold t in Y, B.
  destruct (getDateTime_well_formed date) as (_ & Hw). fold t in Hw.
  destruct (isoDayOfWeek_range t Hw) as (Hi & _).
  set (y := getYear t) in *.
  set (J := daysSinceEpochFromDate y 1 1) in *.
  pose proof (daysSinceEpochFromDate_next_year (y - 1)) as P.
  replace (y - 1 + 1) with y in P by lia. fold J in P.
  pose proof (daysSinceEpochFromDate_next_year y) as N. fold J in N.
  pose proof (daysSinceEpochFromDate_next_year (y + 1)) as N2.
  assert (L1 : 365 <= year_length (y - 1) <= 366)
    by (unfold year_length; destruct (isLeapYear (y - 1)); lia).
  assert (L2 : 365 <= year_length y <= 366)
    by (unfold year_length; destruct (isLeapYear y); lia).
  assert (L3 : 365 <= year_length (y + 1) <= 366)
    by (unfold year_length; destruct (isLeapYear (y + 1)); lia).
  unfold Spec.iso_week. fold t.
  assert (T : date - Spec.isoDayOfWeek t + 4 = J + k) by (subst k; lia).
  rewrite T.
  destruct (Z.ltb_spec k 0) as [K0|K0].
  - destruct (getDateTime_in_year (J + k) (y - 1)) as (_ & E).
    + replace (y - 1 + 1) with y by lia. fold J. subst k. lia.
    + rewrite E. do 2 f_equal. lia.
  - destruct (Z.ltb_spec k (year_length y)) as [K1|K1].
    + destruct (getDateTime_in_year (J + k) y) as (_ & E).
      * fold J. lia.
      * rewrite E. do 2 f_equal. fold J. lia.
    + destruct (getDateTime_in_year (J + k) (y + 1)) as (_ & E).
      * replace (y + 1 + 1) with (y + 1 + 1) by lia. subst k. lia.
      * rewrite E.
        assert (R : 0 <= J + k - daysSinceEpochFromDate (y + 1) 1 1 <= 2)
          by (subst k; lia).
        set (r := J + k - daysSinceEpochFromDate (y + 1) 1 1) in *.
        clearbody r. dlia.
Qed.

(** Outside the two cases set apart, [week] is the ISO week. *)
Lemma WeekFunction_call_iso (date : Z) :
  ~ Spec.off_iso date -> WeekFunction.call date = Spec.iso_week date.
Proof.
  intros Off.
  rewrite WeekFunction_call_staged, iso_week_cases.
  pose proof (firstMonday_of_date date) as F.
  unfold Spec.off_iso in Off. cbv zeta in Off |- *.
  pose proof (getDateTime_fields date) as (_ & _ & _ & _ & B & _).
  cbv zeta in B.
  destruct (getDateTime_well_formed date) as (_ & Hw).
  set (t := getDateTime date) in *.
  destruct (isoDayOfWeek_range t Hw) as (Hi & _).
  set (first := Spec.firstMonday (getYear t)) in *.
  unfold Spec.staged_week.
  unfold Spec.base_estimate, Spec.mondayOfWeek, Spec.dayOfYear in *.
  set (i := Spec.isoDayOfWeek t) in *.
  set (yd := tm_yday t) in *.
  set (L := year_length (getYear t)) in *.
  assert (HL : 365 <= L <= 366)
    by (subst L; unfold year_length; destruct (isLeapYear (getYear t)); lia).
  set (k := yd - i + 4).
  assert (Ek : (10 + (yd + 1) - i) / 7 = (k + 7) / 7) by (subst k; f_equal; lia).
  rewrite Ek in *.
  assert (Em : yd + 1 - (i - 1) = k - 2) by (subst k; lia).
  rewrite Em in *.
  assert (Kb : -3 <= k <= L + 2) by (subst k; lia).
  clearbody k i yd first. clear Em Ek.
  destruct (Z.ltb_spec k 0) as [K0|K0].
  - assert (E0 : (k + 7) / 7 = 0) by dlia.
    rewrite E0 in *. cbn [Z.eqb].
    assert (Fk : first = k + 5).
    { rewrite <- F. replace (k - 2 + 6) with (k + 4) by lia.
      rewrite Z.mod_small by lia. lia. }
    unfold year_length.
    destruct (isLeapYear (getYear t - 1)) eqn:Lp;
      assert (k = -1 \/ k = -2 \/ k = -3) as [K|[K|K]] by lia;
      subst k; subst first; cbn in Off |- *;
      try reflexivity; exfalso; apply Off; auto.
  - assert (E0 : (k + 7) / 7 = k / 7 + 1) by dlia.
    rewrite E0.
    destruct (Z.eqb_spec (k / 7 + 1) 0) as [Z0|Z0]; [dlia|].
    destruct (Z.ltb_spec k L) as [K1|K1].
    + destruct (Z.eqb_spec (k / 7 + 1) 53) as [Z1|Z1]; [|reflexivity].
      destruct (Z.ltb_spec (L - (k - 2)) 3); [lia|]. lia.
    + destruct (Z.eqb_spec (k / 7 + 1) 53) as [Z1|Z1]; [|dlia].
      destruct (Z.ltb_spec (L - (k - 2)) 3); [reflexivity|lia].
Qed.


(** C1 as stated, with the first Monday of the previous year, differs
    from [week] on New Year's Day of 2021: the year before, 2020, is a leap
    year whose first Monday is 6 January, so the stated rule gives 52 where
    [week] returns 53. *)
Lemma C1_week_counterexample :
  in_int32 18628 /\
  MakeDateFunction.call 2021 1 1 = Ok 18628 /\
  WeekFunction.call 18628 = 53 /\
  Spec.week_as_stated 18628 = 52 /\
  WeekFunction.call 18628 <> Spec.week_as_stated 18628.
Proof.
  split; [unfold in_int32, INT32_MIN, INT32_MAX; lia|].
  split; [reflexivity|]. split; [reflexivity|]. split; [reflexivity|].
  vm_compute. discriminate.
Qed.

(** Where [week] leaves ISO-8601: New Year's Day of 2022 and of 2017
    belong to week 52 of the year before, [week] returns 53. *)
Lemma WeekFunction_call_off_iso :
  MakeDateFunction.call 2022 1 1 = Ok 18993 /\
  WeekFunction.call 18993 = 53 /\ Spec.iso_week 18993 = 52 /\
  MakeDateFunction.call 2017 1 1 = Ok 17167 /\
  WeekFunction.call 17167 = 53 /\ Spec.iso_week 17167 = 52.
Proof. repeat split; reflexivity. Qed.

(** C1, amended.  [week] starts from the estimate
    [floor((10 + dayOfYear - isoDayOfWeek) / 7)].  At estimate 0 it
    consults the first Monday of the year of the date, not of the year
    before: it returns 53 when that Monday falls on day 4, or on day 3
    after a leap year, and 52 when it falls on day 2 after a common year.
    At estimate 53 it returns 1 when fewer than 3 days separate the Monday
    of the week from the end of the year, else 53.  Any other estimate is
    returned.  In all these cases the result is the ISO-8601 week.  The
    week of 2020-12-31 and of 2021-01-01 is 53. *)
Theorem C1_week (date : Z) :
  let t := getDateTime date in
  let estimate := Spec.base_estimate t in
  let first := Spec.firstMonday (getYear t) in
  let leap := isLeapYear (getYear t - 1) in
  (estimate = 0 -> first = 4 \/ (first = 3 /\ leap = true) ->
   WeekFunction.call date = 53) /\
  (estimate = 0 -> first = 2 -> leap = false -> WeekFunction.call date = 52) /\
  (estimate = 53 ->
   WeekFunction.call date
   = if year_length (getYear t) - Spec.mondayOfWeek t <? 3 then 1 else 53) /\
  (estimate <> 0 -> estimate <> 53 -> WeekFunction.call date = estimate) /\
  (~ Spec.off_iso date -> WeekFunction.call date = Spec.iso_week date) /\
  and_then (MakeDateFunction.call 2020 12 31) (fun d => Ok (WeekFunction.call d))
  = Ok 53 /\
  and_then (MakeDateFunction.call 2021 1 1) (fun d => Ok (WeekFunction.call d))
  = Ok 53.
Proof.
  intros t estimate first leap.
  rewrite WeekFunction_call_staged. fold t first.
  unfold Spec.staged_week. fold estimate leap.
  split.
  { intros E [F|[F G]]; rewrite E, F; cbn [Z.eqb]; [|rewrite G];
      destruct leap; reflexivity. }
  split.
  { intros E F G. rewrite E, F, G. reflexivity. }
  split.
  { intros E. rewrite E. reflexivity. }
  split.
  { intros E0 E53.
    destruct (Z.eqb_spec estimate 0); [contradiction|].
    destruct (Z.eqb_spec estimate 53); [contradiction|]. reflexivity. }
  split.
  { intros Off. rewrite <- WeekFunction_call_iso by assumption.
    rewrite WeekFunction_call_staged. reflexivity. }
  split; reflexivity.
Qed.

Lemma C1_week_witness :
  Spec.base_estimate (getDateTime 18628) = 0 /\
  Spec.firstMonday (getYear (getDateTime 18628)) = 4 /\
  WeekFunction.call 18628 = 53.
Proof.
  assert (E : Spec.base_estimate (getDateTime 18628) = 0) by reflexivity.
  assert (F : Spec.firstMonday (getYear (getDateTime 18628)) = 4) by reflexivity.
  split; [exact E|]. split; [exact F|].
  destruct (C1_week 18628) as (W & _).
  exact (W E (or_introl F)).
Defined.

(** * Further properties of the adapters *)

(** ** [getWeek] on any well-formed broken-down time *)

(** The estimate and the Monday of the week, from the fields of [t]. *)
Lemma getWeek_quantities (t : tm) :
  0 <= tm_yday t <= 365 -> 0 <= tm_wday t <= 6 ->
  Spec.mondayOfWeek t = tm_yday t + 1 - (tm_wday t + 6) mod 7 /\
  Spec.base_estimate t = (Spec.mondayOfWeek t + 9) / 7 /\
  -5 <= Spec.mondayOfWeek t <= 366.
Proof.
  intros Hy Hw.
  destruct (isoDayOfWeek_range t Hw) as (Hi & _).
  assert (I : Spec.isoDayOfWeek t - 1 = (tm_wday t + 6) mod 7).
  { unfold Spec.isoDayOfWeek.
    destruct (Z.eqb_spec (tm_wday t) 0) as [E|E]; [rewrite E; reflexivity|].
    symmetry. mod_is 1. }
  unfold Spec.base_estimate, Spec.mondayOfWeek, Spec.dayOfYear.
  rewrite <- I.
  split; [reflexivity|]. split; [f_equal; lia | lia].
Qed.

(** [getWeek] never leaves 1..53. *)
Theorem getWeek_range (t : tm) :
  0 <= tm_yday t <= 365 -> 0 <= tm_wday t <= 6 ->
  1 <= WeekFunction.getWeek t <= 53.
Proof.
  intros Hy Hw. rewrite getWeek_staged by assumption.
  destruct (getWeek_quantities t Hy Hw) as (_ & E & M).
  unfold Spec.staged_week. rewrite E.
  set (m := Spec.mondayOfWeek t) in *. clearbody m.
  assert (B : 0 <= (m + 9) / 7 <= 53) by dlia.
  destruct (Z.eqb_spec ((m + 9) / 7) 0).
  - destruct (_ || _); lia.
  - destruct (Z.eqb_spec ((m + 9) / 7) 53).
    + destruct (_ <? _); lia.
    + lia.
Qed.

Lemma getWeek_range_witness :
  let t := {| tm_mday := 1; tm_mon := 0; tm_year := 122; tm_wday := 6;
              tm_yday := 0 |} in
  0 <= tm_yday t <= 365 /\ 0 <= tm_wday t <= 6 /\
  1 <= WeekFunction.getWeek t <= 53.
Proof.
  intros t.
  assert (Hy : 0 <= tm_yday t <= 365) by (cbn; lia).
  assert (Hw : 0 <= tm_wday t <= 6) by (cbn; lia).
  split; [exact Hy|]. split; [exact Hw|].
  exact (getWeek_range t Hy Hw).
Defined.

(** 4 January lies in week 1, whatever its weekday and year. *)
Theorem getWeek_january_4 (t : tm) :
  tm_yday t = 3 -> 0 <= tm_wday t <= 6 -> WeekFunction.getWeek t = 1.
Proof.
  intros Hy Hw. rewrite getWeek_staged by lia.
  destruct (getWeek_quantities t ltac:(lia) Hw) as (Mo & E & _).
  unfold Spec.staged_week. rewrite E.
  assert (M : -2 <= Spec.mondayOfWeek t <= 4) by (rewrite Mo, Hy; dlia).
  set (m := Spec.mondayOfWeek t) in *. clearbody m.
  assert (B : (m + 9) / 7 = 1) by dlia.
  rewrite B. reflexivity.
Qed.

Lemma getWeek_january_4_witness :
  let t := {| tm_mday := 4; tm_mon := 0; tm_year := 121; tm_wday := 1;
              tm_yday := 3 |} in
  tm_yday t = 3 /\ 0 <= tm_wday t <= 6 /\ WeekFunction.getWeek t = 1.
Proof.
  intros t.
  assert (Hy : tm_yday t = 3) by reflexivity.
  assert (Hw : 0 <= tm_wday t <= 6) by (cbn; lia).
  split; [exact Hy|]. split; [exact Hw|].
  exact (getWeek_january_4 t Hy Hw).
Defined.

(** 28 December, the fourth day from the end of the year, lies in week 52
    or 53, never in week 1 of the next year. *)
Theorem getWeek_december_28 (t : tm) :
  tm_yday t = year_length (tm_year t + 1900) - 4 -> 0 <= tm_wday t <= 6 ->
  52 <= WeekFunction.getWeek t <= 53.
Proof.
  intros Hy Hw.
  assert (L : 365 <= year_length (tm_year t + 1900) <= 366)
    by (unfold year_length; destruct (isLeapYear _); lia).
  rewrite getWeek_staged by lia.
  destruct (getWeek_quantities t ltac:(lia) Hw) as (Mo & E & _).
  unfold Spec.staged_week. rewrite E.
  replace (getYear t) with (tm_year t + 1900) by (unfold getYear; lia).
  set (Y := year_length (tm_year t + 1900)) in *. clearbody Y.
  assert (M : Y - 9 <= Spec.mondayOfWeek t <= Y - 3) by (rewrite Mo, Hy; dlia).
  set (m := Spec.mondayOfWeek t) in *. clearbody m.
  destruct (Z.eqb_spec ((m + 9) / 7) 0); [dlia|].
  destruct (Z.eqb_spec ((m + 9) / 7) 53).
  - destruct (Z.ltb_spec (Y - m) 3); lia.
  - dlia.
Qed.

Lemma getWeek_december_28_witness :
  let t := {| tm_mday := 28; tm_mon := 11; tm_year := 120; tm_wday := 1;
              tm_yday := 362 |} in
  tm_yday t = year_length (tm_year t + 1900) - 4 /\ 0 <= tm_wday t <= 6 /\
  52 <= WeekFunction.getWeek t <= 53.
Proof.
  intros t.
  assert (Hy : tm_yday t = year_length (tm_year t + 1900) - 4) by reflexivity.
  assert (Hw : 0 <= tm_wday t <= 6) by (cbn; lia).
  split; [exact Hy|]. split; [exact Hw|].
  exact (getWeek_december_28 t Hy Hw).
Defined.

(** Two days of one year whose weeks start on the same Monday get the
    same week number. *)
Theorem getWeek_same_monday (t1 t2 : tm) :
  0 <= tm_yday t1 <= 365 -> 0 <= tm_wday t1 <= 6 ->
  0 <= tm_yday t2 <= 365 -> 0 <= tm_wday t2 <= 6 ->
  tm_year t1 = tm_year t2 ->
  tm_yday t1 - (tm_wday t1 + 6) mod 7 = tm_yday t2 - (tm_wday t2 + 6) mod 7 ->
  WeekFunction.getWeek t1 = WeekFunction.getWeek t2.
Proof.
  intros Hy1 Hw1 Hy2 Hw2 Ey Em.
  rewrite !getWeek_staged by assumption.
  destruct (getWeek_quantities t1 Hy1 Hw1) as (M1 & E1 & _).
  destruct (getWeek_quantities t2 Hy2 Hw2) as (M2 & E2 & _).
  assert (M : Spec.mondayOfWeek t1 = Spec.mondayOfWeek t2) by lia.
  unfold Spec.staged_week, getYear. rewrite E1, E2, M, Ey. reflexivity.
Qed.

Lemma getWeek_same_monday_witness :
  let t1 := {| tm_mday := 1; tm_mon := 0; tm_year := 122; tm_wday := 6;
               tm_yday := 0 |} in
  let t2 := {| tm_mday := 2; tm_mon := 0; tm_year := 122; tm_wday := 0;
               tm_yday := 1 |} in
  WeekFunction.getWeek t1 = WeekFunction.getWeek t2.
Proof.
  intros t1 t2.
  apply (getWeek_same_monday t1 t2); cbn; try lia; reflexivity.
Defined.

(** The ends of the year: week 1 is reported only up to 10 January and on
    the last three days of December; week 52 or 53 only on the first three
    days of January and from day 355 of the year on. *)
Theorem getWeek_year_ends (t : tm) :
  0 <= tm_yday t <= 365 -> 0 <= tm_wday t <= 6 ->
  (WeekFunction.getWeek t = 1 ->
   tm_yday t <= 9 \/ year_length (tm_year t + 1900) - 3 <= tm_yday t) /\
  (52 <= WeekFunction.getWeek t -> tm_yday t <= 2 \/ 354 <= tm_yday t).
Proof.
  intros Hy Hw. rewrite getWeek_staged by assumption.
  destruct (getWeek_quantities t Hy Hw) as (Mo & E & _).
  unfold Spec.staged_week. rewrite E.
  replace (getYear t) with (tm_year t + 1900) by (unfold getYear; lia).
  assert (L : 365 <= year_length (tm_year t + 1900) <= 366)
    by (unfold year_length; destruct (isLeapYear (tm_year t + 1900)); lia).
  set (Y := year_length (tm_year t + 1900)) in *. clearbody Y.
  assert (M : tm_yday t - 5 <= Spec.mondayOfWeek t <= tm_yday t + 1)
    by (rewrite Mo; dlia).
  set (m := Spec.mondayOfWeek t) in *. clearbody m.
  set (yd := tm_yday t) in *. clearbody yd.
  destruct (Z.eqb_spec ((m + 9) / 7) 0) as [E0|E0].
  - assert (yd <= 2) by dlia.
    split; intros _; left; lia.
  - destruct (Z.eqb_spec ((m + 9) / 7) 53) as [E1|E1].
    + assert (354 <= yd) by dlia.
      destruct (Z.ltb_spec (Y - m) 3); split; intros W; try lia.
    + split; intros W; [left|right]; dlia.
Qed.

Lemma getWeek_year_ends_witness :
  let t := {| tm_mday := 31; tm_mon := 11; tm_year := 118; tm_wday := 1;
              tm_yday := 364 |} in
  WeekFunction.getWeek t = 1 /\
  (tm_yday t <= 9 \/ year_length (tm_year t + 1900) - 3 <= tm_yday t).
Proof.
  intros t.
  assert (Hy : 0 <= tm_yday t <= 365) by (cbn; lia).
  assert (Hw : 0 <= tm_wday t <= 6) by (cbn; lia).
  assert (W : WeekFunction.getWeek t = 1) by reflexivity.
  split; [exact W|].
  destruct (getWeek_year_ends t Hy Hw) as (E & _).
  exact (E W).
Defined.

(** ** [week], [year] and [day_of_week] of a date *)


Lemma YearFunction_call_getYear (date : Z) :
  in_int32 date -> YearFunction.call date = getYear (getDateTime date).
Proof.
  intros H. destruct (fields_in_int32 date H) as (Y & _).
  unfold YearFunction.call, YearFunction.getYear.
  fold (getYear (getDateTime date)). apply to_int32_small, Y.
Qed.

Lemma DayOfWeekFunction_call_wday (date : Z) :
  DayOfWeekFunction.call date = (date + 4) mod 7 + 1.
Proof.
  unfold DayOfWeekFunction.call, DayOfWeekFunction.getDayOfWeek.
  rewrite getDateTime_wday. apply to_int32_small.
  unfold in_int32, INT32_MIN, INT32_MAX. dlia.
Qed.

(** The year of a Date: [1900 + tm_year] never overflows, it lies between
    the years of the least and of the greatest Date, and it does not
    decrease as the date grows. *)
Theorem year_of_date (d1 d2 : Z) :
  in_int32 d1 -> in_int32 d2 -> d1 <= d2 ->
  YearFunction.call INT32_MIN = -5877641 /\
  YearFunction.call INT32_MAX = 5881580 /\
  YearFunction.call INT32_MIN <= YearFunction.call d1 /\
  YearFunction.call d1 <= YearFunction.call d2 /\
  YearFunction.call d2 <= YearFunction.call INT32_MAX.
Proof.
  intros H1 H2 Le.
  assert (Mono : forall a b, in_int32 a -> in_int32 b -> a <= b ->
                   YearFunction.call a <= YearFunction.call b).
  { intros a b Ha Hb Hab.
    rewrite !YearFunction_call_getYear by assumption.
    pose proof (date_in_its_year a) as Ia.
    pose proof (date_in_its_year b) as Ib.
    cbv zeta in Ia, Ib.
    set (ya := getYear (getDateTime a)) in *.
    set (yb := getYear (getDateTime b)) in *.
    destruct (Z.le_gt_cases ya yb) as [|C]; [assumption|exfalso].
    pose proof (days_before_year_mono (yb + 1) ya ltac:(lia)) as M.
    rewrite !daysSinceEpochFromDate_jan1 in Ia, Ib. lia. }
  assert (Lo : in_int32 INT32_MIN) by (unfold in_int32, INT32_MIN, INT32_MAX; lia).
  assert (Hi : in_int32 INT32_MAX) by (unfold in_int32, INT32_MIN, INT32_MAX; lia).
  split; [reflexivity|]. split; [reflexivity|].
  split; [apply Mono; try assumption; apply H1|].
  split; [apply Mono; assumption|].
  apply Mono; try assumption; apply H2.
Qed.

Lemma year_of_date_witness :
  in_int32 18627 /\ in_int32 18628 /\ 18627 <= 18628 /\
  YearFunction.call 18627 <= YearFunction.call 18628.
Proof.
  assert (R : in_int32 18627 /\ in_int32 18628)
    by (unfold in_int32, INT32_MIN, INT32_MAX; lia).
  destruct R as (H1 & H2).
  assert (Le : 18627 <= 18628) by lia.
  split; [exact H1|]. split; [exact H2|]. split; [exact Le|].
  destruct (year_of_date 18627 18628 H1 H2 Le) as (_ & _ & _ & E & _).
  exact E.
Defined.

(** [day_of_week] lies in 1..7 and steps by one from a day to the next,
    from 7 (Saturday) back to 1 (Sunday). *)
Theorem day_of_week_steps (date : Z) :
  1 <= DayOfWeekFunction.call date <= 7 /\
  DayOfWeekFunction.call (date + 1) = DayOfWeekFunction.call date mod 7 + 1 /\
  DayOfWeekFunction.call (date + 7) = DayOfWeekFunction.call date.
Proof.
  rewrite !DayOfWeekFunction_call_wday.
  replace (date + 7 + 4) with (date + 4 + 1 * 7) by lia.
  rewrite Z.mod_add by lia.
  replace (date + 1 + 4) with (date + 4 + 1) by lia.
  set (x := date + 4). clearbody x.
  split; [dlia|]. split; [dlia|reflexivity].
Qed.

(** Outside the two cases set apart, [week] changes only from a Sunday to
    a Monday: when the next day is no Monday ([day_of_week] is not 2) it has
    the week of the day before. *)
Theorem week_changes_on_monday (date : Z) :
  ~ Spec.off_iso date -> ~ Spec.off_iso (date + 1) ->
  DayOfWeekFunction.call (date + 1) <> 2 ->
  WeekFunction.call (date + 1) = WeekFunction.call date.
Proof.
  intros O1 O2 Mon.
  rewrite !WeekFunction_call_iso by assumption.
  rewrite DayOfWeekFunction_call_wday in Mon.
  unfold Spec.iso_week, Spec.isoDayOfWeek.
  rewrite !getDateTime_wday.
  replace (date + 1 + 4) with (date + 4 + 1) in * by lia.
  assert (T : date + 1 - (if (date + 4 + 1) mod 7 =? 0 then 7
                          else (date + 4 + 1) mod 7) + 4
              = date - (if (date + 4) mod 7 =? 0 then 7
                        else (date + 4) mod 7) + 4).
  { set (x := date + 4) in *.
    destruct (Z.eqb_spec ((x + 1) mod 7) 0), (Z.eqb_spec (x mod 7) 0);
      clearbody x; dlia. }
  rewrite T. reflexivity.
Qed.

Lemma week_changes_on_monday_witness :
  DayOfWeekFunction.call (18628 + 1) <> 2 /\
  WeekFunction.call (18628 + 1) = WeekFunction.call 18628.
Proof.
  assert (Mon : DayOfWeekFunction.call (18628 + 1) <> 2)
    by (vm_compute; discriminate).
  assert (O1 : ~ Spec.off_iso 18628).
  { intros (_ & [[F _]|[F _]]); vm_compute in F; discriminate. }
  assert (O2 : ~ Spec.off_iso (18628 + 1)).
  { intros (_ & [[F _]|[F _]]); vm_compute in F; discriminate. }
  split; [exact Mon|].
  exact (week_changes_on_monday 18628 O1 O2 Mon).
Defined.

(** ** [make_date] and the fields of a date *)

Lemma MakeDateFunction_call_cases (year month day : Z) :
  in_int32 year -> in_int32 day ->
  MakeDateFunction.call year month day
  = if in_int32b (daysSinceEpochFromDate year month day)
    then Ok (daysSinceEpochFromDate year month day)
    else Raise (IntegerOverflow "make_date" [year; month; day]).
Proof.
  intros Hy Hd. unfold MakeDateFunction.call.
  rewrite daysSinceEpochFromDate_int64 by assumption.
  rewrite overflow_check.
  destruct (in_int32b _) eqn:E; [|reflexivity].
  apply in_int32b_spec in E. rewrite to_int32_small by assumption.
  reflexivity.
Qed.

(** The fields of the date [make_date] returns for a calendar day are that
    day: [year] gives its year back, and so do month and day. *)
Theorem make_date_fields (year month day r : Z) :
  in_int32 year -> 1 <= month <= 12 ->
  1 <= day <= getMaxDayOfMonth year month ->
  MakeDateFunction.call year month day = Ok r ->
  in_int32 r /\
  YearFunction.call r = year /\
  getMonth (getDateTime r) = month /\
  getDay (getDateTime r) = day.
Proof.
  intros Hy Hm Hd E.
  pose proof (month_length_pos (isLeapYear year) month Hm) as Lp.
  fold (getMaxDayOfMonth year month) in Lp.
  assert (Im : in_int32 month) by (unfold in_int32, INT32_MIN, INT32_MAX; lia).
  assert (Id : in_int32 day) by (unfold in_int32, INT32_MIN, INT32_MAX; lia).
  rewrite MakeDateFunction_call_cases in E by assumption.
  destruct (in_int32b (daysSinceEpochFromDate year month day)) eqn:Fit;
    [|discriminate].
  apply in_int32b_spec in Fit. injection E as <-.
  split; [exact Fit|].
  rewrite YearFunction_call_getYear by assumption.
  rewrite getDateTime_daysSinceEpochFromDate by assumption.
  unfold getYear, getMonth, getDay. cbn [tm_year tm_mon tm_mday].
  split; [lia|]. split; [lia|reflexivity].
Qed.

Lemma make_date_fields_witness :
  in_int32 2021 /\ 1 <= 2 <= 12 /\ 1 <= 28 <= getMaxDayOfMonth 2021 2 /\
  MakeDateFunction.call 2021 2 28 = Ok 18686 /\
  YearFunction.call 18686 = 2021.
Proof.
  assert (Hy : in_int32 2021) by (unfold in_int32, INT32_MIN, INT32_MAX; lia).
  assert (Hm : 1 <= 2 <= 12) by lia.
  assert (Hd : 1 <= 28 <= getMaxDayOfMonth 2021 2) by (vm_compute; split; discriminate).
  assert (E : MakeDateFunction.call 2021 2 28 = Ok 18686) by reflexivity.
  split; [exact Hy|]. split; [exact Hm|]. split; [exact Hd|]. split; [exact E|].
  destruct (make_date_fields 2021 2 28 18686 Hy Hm Hd E) as (_ & Y & _).
  exact Y.
Defined.

(** [make_date] of the year, month and day of a Date is that Date: the
    overflow check never fires on the fields of a Date. *)
Theorem make_date_of_fields (date : Z) :
  in_int32 date ->
  MakeDateFunction.call (YearFunction.call date)
                        (getMonth (getDateTime date))
                        (getDay (getDateTime date))
  = Ok date.
Proof.
  intros H. rewrite YearFunction_call_getYear by assumption.
  destruct (fields_in_int32 date H) as (Y & _ & Dy & _).
  pose proof (getDateTime_fields date) as (_ & _ & E & _). cbv zeta in E.
  rewrite MakeDateFunction_call_cases by assumption.
  rewrite E. apply in_int32b_spec in H. rewrite H. reflexivity.
Qed.

Lemma make_date_of_fields_witness :
  in_int32 INT32_MAX /\ MakeDateFunction.call 5881580 7 11 = Ok INT32_MAX.
Proof.
  assert (H : in_int32 INT32_MAX) by (unfold in_int32, INT32_MIN, INT32_MAX; lia).
  split; [exact H|].
  exact (make_date_of_fields INT32_MAX H).
Defined.

(** ** [date_add], [date_sub] and [date_diff] together *)

(** The two branches of [date_sub]: one [addToDate] of the negated offset,
    or, for [INT32_MIN], one of [INT32_MAX] followed by one of 1. *)
Lemma DateSubFunction_call_with_branches
    (addToDate : Z -> DateTimeUnit -> Z -> Z) (date value : Z) :
  in_int32 value ->
  DateSubFunction.call_with addToDate date value
  = if value =? INT32_MIN
    then addToDate (addToDate date kDay INT32_MAX) kDay 1
    else addToDate date kDay (- value).
Proof.
  intros Hv. unfold DateSubFunction.call_with.
  unfold in_int32, INT32_MIN, INT32_MAX in *.
  destruct (Z.gtb_spec value (-2147483648)) as [G|G];
    destruct (Z.eqb_spec value (-2147483648)) as [E|E]; try lia.
  - rewrite (to_int32_small (0 - value))
      by (unfold in_int32, INT32_MIN, INT32_MAX; lia).
    reflexivity.
  - rewrite (to_int32_small (0 - (-2147483648 + 1)))
      by (unfold in_int32, INT32_MIN, INT32_MAX; lia).
    reflexivity.
Qed.

(** Whenever [addToDate] is exact on the sums that are Dates, [date_sub]
    returns exactly [date - value] when that is a Date, for [INT32_MIN]
    too: neither of its two steps leaves the range. *)
Theorem date_sub_exact (addToDate : Z -> DateTimeUnit -> Z -> Z) (date value : Z) :
  (forall a v, in_int32 a -> in_int32 v -> in_int32 (a + v) ->
               addToDate a kDay v = a + v) ->
  in_int32 date -> in_int32 value -> in_int32 (date - value) ->
  DateSubFunction.call_with addToDate date value = date - value.
Proof.
  intros Ex Hd Hv Hr.
  rewrite DateSubFunction_call_with_branches by assumption.
  unfold in_int32, INT32_MIN, INT32_MAX in *.
  destruct (Z.eqb_spec value (-2147483648)) as [E|E].
  - subst value. rewrite (Ex date) by lia. rewrite Ex; lia.
  - rewrite Ex; lia.
Qed.

Lemma addToDate_exact (a v : Z) :
  in_int32 a -> in_int32 v -> in_int32 (a + v) -> addToDate a kDay v = a + v.
Proof. intros _ _ H. apply to_int32_small, H. Qed.

Lemma date_sub_exact_witness :
  in_int32 (-5) /\ in_int32 INT32_MIN /\ in_int32 (-5 - INT32_MIN) /\
  DateSubFunction.call (-5) INT32_MIN = -5 - INT32_MIN.
Proof.
  assert (R : in_int32 (-5) /\ in_int32 INT32_MIN /\ in_int32 (-5 - INT32_MIN))
    by (unfold in_int32, INT32_MIN, INT32_MAX; lia).
  destruct R as (Hd & Hv & Hr).
  split; [exact Hd|]. split; [exact Hv|]. split; [exact Hr|].
  exact (date_sub_exact addToDate (-5) INT32_MIN addToDate_exact Hd Hv Hr).
Defined.

(** With such an [addToDate], [date_sub] undoes [date_add] and [date_add]
    undoes [date_sub], and [date_diff] recovers the offset of [date_add],
    whenever the date in between is a Date. *)
Theorem date_add_sub_diff_round_trip
    (addToDate : Z -> DateTimeUnit -> Z -> Z) (date value : Z) :
  (forall a v, in_int32 a -> in_int32 v -> in_int32 (a + v) ->
               addToDate a kDay v = a + v) ->
  in_int32 date -> in_int32 value ->
  (in_int32 (date + value) ->
   DateSubFunction.call_with addToDate
     (DateAddFunction.call_with addToDate date value) value = date /\
   DateDiffFunction.call (DateAddFunction.call_with addToDate date value) date
   = value) /\
  (in_int32 (date - value) ->
   DateAddFunction.call_with addToDate
     (DateSubFunction.call_with addToDate date value) value = date /\
   DateDiffFunction.call date (DateSubFunction.call_with addToDate date value)
   = value).
Proof.
  intros Ex Hd Hv.
  assert (Sub : forall d, in_int32 d -> in_int32 (d - value) ->
                  DateSubFunction.call_with addToDate d value = d - value).
  { intros d Id Ir.
    rewrite DateSubFunction_call_with_branches by assumption.
    unfold in_int32, INT32_MIN, INT32_MAX in *.
    destruct (Z.eqb_spec value (-2147483648)) as [E|E].
    - subst value. rewrite (Ex d) by lia. rewrite Ex; lia.
    - rewrite Ex; lia. }
  split; intros Hr.
  - unfold DateAddFunction.call_with. rewrite Ex by assumption.
    rewrite Sub; try assumption;
      [| replace (date + value - value) with date by lia; assumption].
    unfold DateDiffFunction.call.
    replace (date + value - date) with value by lia.
    split; [lia | apply to_int32_small, Hv].
  - rewrite Sub by assumption.
    unfold DateAddFunction.call_with.
    rewrite Ex; try assumption;
      [| replace (date - value + value) with date by lia; assumption].
    unfold DateDiffFunction.call.
    replace (date - (date - value)) with value by lia.
    split; [lia | apply to_int32_small, Hv].
Qed.

Lemma date_add_sub_diff_round_trip_witness :
  in_int32 18686 /\ in_int32 INT32_MIN /\ in_int32 (18686 + INT32_MIN) /\
  DateSubFunction.call (DateAddFunction.call 18686 INT32_MIN) INT32_MIN = 18686.
Proof.
  assert (R : in_int32 18686 /\ in_int32 INT32_MIN /\ in_int32 (18686 + INT32_MIN))
    by (unfold in_int32, INT32_MIN, INT32_MAX; lia).
  destruct R as (Hd & Hv & Hr).
  split; [exact Hd|]. split; [exact Hv|]. split; [exact Hr|].
  destruct (date_add_sub_diff_round_trip addToDate 18686 INT32_MIN
              addToDate_exact Hd Hv) as (E & _).
  destruct (E Hr) as (E1 & _). exact E1.
Defined.

Lemma DateDiffFunction_call_cases (endDate startDate : Z) :
  in_int32 endDate -> in_int32 startDate ->
  let diff := endDate - startDate in
  (in_int32 diff /\ DateDiffFunction.call endDate startDate = diff) \/
  (INT32_MAX < diff /\
   DateDiffFunction.call endDate startDate = diff - 4294967296) \/
  (diff < INT32_MIN /\
   DateDiffFunction.call endDate startDate = diff + 4294967296).
Proof.
  intros He Hs diff. unfold DateDiffFunction.call. fold diff.
  unfold in_int32, INT32_MIN, INT32_MAX in *.
  assert (B : -4294967295 <= diff <= 4294967295) by (subst diff; lia).
  clearbody diff. unfold to_int32, wrap.
  assert (diff < -2147483648 \/ -2147483648 <= diff <= 2147483647
          \/ 2147483647 < diff) as [C|[C|C]] by lia.
  - right. right. split; [lia|].
    replace ((diff + 2147483648) mod (2 * 2147483648))
      with (diff + 2147483648 + 4294967296); [lia|].
    apply (Z.mod_unique _ _ (-1)); lia.
  - left. split; [lia|]. rewrite Z.mod_small by lia. lia.
  - right. left. split; [lia|].
    replace ((diff + 2147483648) mod (2 * 2147483648))
      with (diff + 2147483648 - 4294967296); [lia|].
    apply (Z.mod_unique _ _ 1); lia.
Qed.

(** [date_diff] of two Dates is 0 only for equal dates: the wrap-around
    never makes two different dates look the same. *)
Theorem date_diff_zero_iff (endDate startDate : Z) :
  in_int32 endDate -> in_int32 startDate ->
  (DateDiffFunction.call endDate startDate = 0 <-> endDate = startDate).
Proof.
  intros He Hs.
  destruct (DateDiffFunction_call_cases endDate startDate He Hs)
    as [(_ & E)|[(C & E)|(C & E)]];
    rewrite E; unfold in_int32, INT32_MIN, INT32_MAX in *; lia.
Qed.

Lemma date_diff_zero_iff_witness :
  in_int32 INT32_MAX /\ in_int32 INT32_MIN /\
  DateDiffFunction.call INT32_MAX INT32_MIN <> 0.
Proof.
  assert (R : in_int32 INT32_MAX /\ in_int32 INT32_MIN)
    by (unfold in_int32, INT32_MIN, INT32_MAX; lia).
  destruct R as (He & Hs).
  split; [exact He|]. split; [exact Hs|].
  intros E. apply (date_diff_zero_iff INT32_MAX INT32_MIN He Hs) in E.
  discriminate E.
Defined.

(** When the true difference of two Dates is no [int32_t], [date_diff] has
    the wrong sign: negative for an end far after the start, not negative
    for an end far before it.  Otherwise it is the true difference. *)
Theorem date_diff_sign (endDate startDate : Z) :
  in_int32 endDate -> in_int32 startDate ->
  (in_int32 (endDate - startDate) ->
   DateDiffFunction.call endDate startDate = endDate - startDate) /\
  (INT32_MAX < endDate - startDate ->
   DateDiffFunction.call endDate startDate < 0) /\
  (endDate - startDate < INT32_MIN ->
   0 <= DateDiffFunction.call endDate startDate) /\
  (DateDiffFunction.call endDate startDate = endDate - startDate ->
   in_int32 (endDate - startDate)).
Proof.
  intros He Hs.
  destruct (DateDiffFunction_call_cases endDate startDate He Hs)
    as [(C & E)|[(C & E)|(C & E)]];
    rewrite E; unfold in_int32, INT32_MIN, INT32_MAX in *;
    repeat split; intros; lia.
Qed.

Lemma date_diff_sign_witness :
  in_int32 INT32_MAX /\ in_int32 (-1) /\ INT32_MAX < INT32_MAX - (-1) /\
  DateDiffFunction.call INT32_MAX (-1) < 0.
Proof.
  assert (R : in_int32 INT32_MAX /\ in_int32 (-1))
    by (unfold in_int32, INT32_MIN, INT32_MAX; lia).
  destruct R as (He & Hs).
  assert (O : INT32_MAX < INT32_MAX - (-1)) by (unfold INT32_MAX; lia).
  split; [exact He|]. split; [exact Hs|]. split; [exact O|].
  destruct (date_diff_sign INT32_MAX (-1) He Hs) as (_ & E & _).
  exact (E O).
Defined.

(** Swapping the arguments of [date_diff] negates the result, except that
    [INT32_MIN] stays [INT32_MIN]. *)
Theorem date_diff_swap (endDate startDate : Z) :
  in_int32 endDate -> in_int32 startDate ->
  (DateDiffFunction.call startDate endDate <> INT32_MIN ->
   DateDiffFunction.call endDate startDate
   = - DateDiffFunction.call startDate endDate) /\
  (DateDiffFunction.call startDate endDate = INT32_MIN ->
   DateDiffFunction.call endDate startDate = INT32_MIN).
Proof.
  intros He Hs.
  destruct (DateDiffFunction_call_cases endDate startDate He Hs)
    as [(C & E)|[(C & E)|(C & E)]];
    destruct (DateDiffFunction_call_cases startDate endDate Hs He)
      as [(C' & E')|[(C' & E')|(C' & E')]];
    rewrite E, E'; unfold in_int32, INT32_MIN, INT32_MAX in *;
    split; intros; lia.
Qed.

Lemma date_diff_swap_witness :
  in_int32 INT32_MIN /\ in_int32 0 /\
  DateDiffFunction.call 0 INT32_MIN = INT32_MIN /\
  DateDiffFunction.call INT32_MIN 0 = INT32_MIN.
Proof.
  assert (R : in_int32 INT32_MIN /\ in_int32 0)
    by (unfold in_int32, INT32_MIN, INT32_MAX; lia).
  destruct R as (He & Hs).
  assert (E : DateDiffFunction.call 0 INT32_MIN = INT32_MIN) by reflexivity.
  split; [exact He|]. split; [exact Hs|]. split; [exact E|].
  destruct (date_diff_swap INT32_MIN 0 He Hs) as (_ & F).
  exact (F E).
Defined.

(** Differences chain modulo [2^32]: the 32-bit sum of [date_diff a b] and
    [date_diff b c] is [date_diff a c]. *)
Theorem date_diff_chain (a b c : Z) :
  to_int32 (DateDiffFunction.call a b + DateDiffFunction.call b c)
  = DateDiffFunction.call a c.
Proof.
  unfold DateDiffFunction.call.
  rewrite to_int32_add_l.
  rewrite (Z.add_comm (a - b)), to_int32_add_l.
  f_equal. lia.
Qed.

(** ** [last_day] at its edges *)

Lemma daysSinceEpochFromDate_day (y m d : Z) :
  daysSinceEpochFromDate y m d = daysSinceEpochFromDate y m 1 + (d - 1).
Proof. unfold daysSinceEpochFromDate. lia. Qed.

(** The fields of the [d]-th day of a month. *)
Lemma getDateTime_day_of_month (y m d : Z) :
  1 <= m <= 12 -> 1 <= d <= getMaxDayOfMonth y m ->
  getYear (getDateTime (daysSinceEpochFromDate y m 1 + (d - 1))) = y /\
  getMonth (getDateTime (daysSinceEpochFromDate y m 1 + (d - 1))) = m /\
  getDay (getDateTime (daysSinceEpochFromDate y m 1 + (d - 1))) = d.
Proof.
  intros Hm Hd. rewrite <- daysSinceEpochFromDate_day.
  rewrite getDateTime_daysSinceEpochFromDate by assumption.
  unfold getYear, getMonth, getDay. cbn [tm_year tm_mon tm_mday]. lia.
Qed.

(** A [last_day] that is returned lies at most 30 days after its argument,
    and is its own [last_day]. *)
Theorem last_day_idempotent (date r : Z) :
  in_int32 date -> LastDayFunction.call date = Ok r ->
  date <= r <= date + 30 /\ LastDayFunction.call r = Ok r.
Proof.
  intros H E.
  rewrite LastDayFunction_call_fields in E by assumption. cbv zeta in E.
  pose proof (getDateTime_fields date) as (Mr & Dr & Ed & _).
  cbv zeta in Mr, Dr, Ed.
  set (y := getYear (getDateTime date)) in *.
  set (m := getMonth (getDateTime date)) in *.
  set (d := getDay (getDateTime date)) in *.
  pose proof (month_length_pos (isLeapYear y) m Mr) as Lp.
  fold (getMaxDayOfMonth y m) in Lp.
  set (last := daysSinceEpochFromDate y m (getMaxDayOfMonth y m)) in *.
  destruct (in_int32b last) eqn:Fit; [|discriminate].
  injection E as <-.
  assert (Fit' := Fit). apply in_int32b_spec in Fit'.
  split.
  - subst last. rewrite <- Ed. unfold daysSinceEpochFromDate. lia.
  - rewrite LastDayFunction_call_fields by assumption. cbv zeta.
    assert (R : getDateTime last
                = {| tm_mday := getMaxDayOfMonth y m; tm_mon := m - 1;
                     tm_year := y - 1900; tm_wday := (last + 4) mod 7;
                     tm_yday := days_before_month (isLeapYear y) m
                                + (getMaxDayOfMonth y m - 1) |})
      by (apply getDateTime_daysSinceEpochFromDate; lia).
    rewrite R. unfold getYear, getMonth. cbn [tm_year tm_mon].
    replace (1900 + (y - 1900)) with y by lia.
    replace (1 + (m - 1)) with m by lia.
    fold last. rewrite Fit. reflexivity.
Qed.

Lemma last_day_idempotent_witness :
  in_int32 18668 /\ LastDayFunction.call 18668 = Ok 18686 /\
  LastDayFunction.call 18686 = Ok 18686.
Proof.
  assert (H : in_int32 18668) by (unfold in_int32, INT32_MIN, INT32_MAX; lia).
  assert (E : LastDayFunction.call 18668 = Ok 18686) by reflexivity.
  split; [exact H|]. split; [exact E|].
  destruct (last_day_idempotent 18668 18686 H E) as (_ & I).
  exact I.
Defined.

(** A month that starts 40 days or more before the greatest Date ends
    within the Dates. *)
Lemma last_day_fits (date y m d : Z) :
  in_int32 date -> date < 2147483607 ->
  1 <= m <= 12 -> 1 <= d <= getMaxDayOfMonth y m ->
  daysSinceEpochFromDate y m d = date ->
  in_int32b (daysSinceEpochFromDate y m (getMaxDayOfMonth y m)) = true.
Proof.
  intros H Early Mr Dr Ed.
  pose proof (month_length_pos (isLeapYear y) m Mr) as Lp.
  apply in_int32b_spec.
  unfold in_int32, INT32_MIN, INT32_MAX, getMaxDayOfMonth,
    daysSinceEpochFromDate in *.
  lia.
Qed.

(** The dates of a month, counted from its first day. *)
Lemma fields_in_month (date first y m : Z) :
  daysSinceEpochFromDate y m 1 = first ->
  1 <= m <= 12 -> first <= date < first + getMaxDayOfMonth y m ->
  getYear (getDateTime date) = y /\ getMonth (getDateTime date) = m.
Proof.
  intros J Hm Hd.
  destruct (getDateTime_day_of_month y m (date - first + 1) Hm ltac:(lia))
    as (Ey & Em & _).
  rewrite J in Ey, Em.
  replace (first + (date - first + 1 - 1)) with date in Ey, Em by lia.
  split; assumption.
Qed.

(** [last_day] raises exactly on the last eleven Dates, 5881580-07-01 to
    5881580-07-11, whose month ends after the greatest Date; the message
    then carries year, month and again the month, never the day. *)
Theorem last_day_overflow (date : Z) :
  in_int32 date ->
  (INT32_MAX - 10 <= date ->
   LastDayFunction.call date
   = Raise (IntegerOverflow "last_day" [5881580; 7; 7])) /\
  (date < INT32_MAX - 10 -> exists r, LastDayFunction.call date = Ok r).
Proof.
  intros H.
  rewrite LastDayFunction_call_fields by assumption. cbv zeta.
  split; intros C.
  - destruct (fields_in_month date 2147483637 5881580 7) as (Ey & Em).
    + vm_compute. reflexivity.
    + lia.
    + replace (getMaxDayOfMonth 5881580 7) with 31 by (vm_compute; reflexivity).
      unfold in_int32, INT32_MIN, INT32_MAX in *. lia.
    + rewrite Ey, Em. vm_compute. reflexivity.
  - destruct (Z.le_gt_cases 2147483607 date) as [Jun|Early].
    + destruct (fields_in_month date 2147483607 5881580 6) as (Ey & Em).
      * vm_compute. reflexivity.
      * lia.
      * replace (getMaxDayOfMonth 5881580 6) with 30 by (vm_compute; reflexivity).
        unfold in_int32, INT32_MIN, INT32_MAX in *. lia.
      * rewrite Ey, Em. exists 2147483636. vm_compute. reflexivity.
    + pose proof (getDateTime_fields date) as (Mr & Dr & Ed & _).
      rewrite (last_day_fits date _ _ _ H Early Mr Dr Ed).
      eexists. reflexivity.
Qed.

Lemma last_day_overflow_witness :
  in_int32 INT32_MAX /\ INT32_MAX - 10 <= INT32_MAX /\
  LastDayFunction.call INT32_MAX
  = Raise (IntegerOverflow "last_day" [5881580; 7; 7]).
Proof.
  assert (H : in_int32 INT32_MAX) by (unfold in_int32, INT32_MIN, INT32_MAX; lia).
  assert (C : INT32_MAX - 10 <= INT32_MAX) by lia.
  split; [exact H|]. split; [exact C|].
  destruct (last_day_overflow INT32_MAX H) as (E & _).
  exact (E C).
Defined.

(** ** [add_months] composed *)

(** Adding no month returns the date. *)
Theorem add_months_zero (date : Z) :
  in_int32 date -> AddMonthsFunction.call date 0 = Ok date.
Proof.
  intros H.
  assert (Z0 : in_int32 0) by (unfold in_int32, INT32_MIN, INT32_MAX; lia).
  rewrite AddMonthsFunction_call_fields by assumption. cbv zeta.
  pose proof (getDateTime_fields date) as (Mr & Dr & Ed & _).
  cbv zeta in Mr, Dr, Ed.
  set (y := getYear (getDateTime date)) in *.
  set (m := getMonth (getDateTime date)) in *.
  set (d := getDay (getDateTime date)) in *.
  assert (Q : (m - 1 + 0) / 12 = 0) by dlia.
  assert (R : (m - 1 + 0) mod 12 + 1 = m) by dlia.
  rewrite Q, R. replace (y + 0) with y by lia.
  destruct (Z.ltb_spec (getMaxDayOfMonth y m) d); [lia|].
  rewrite Ed. apply in_int32b_spec in H. rewrite H. reflexivity.
Qed.

Lemma add_months_zero_witness :
  in_int32 INT32_MIN /\ AddMonthsFunction.call INT32_MIN 0 = Ok INT32_MIN.
Proof.
  assert (H : in_int32 INT32_MIN) by (unfold in_int32, INT32_MIN, INT32_MAX; lia).
  split; [exact H|].
  exact (add_months_zero INT32_MIN H).
Defined.

(** From a day of the month up to the 28th, which is never lowered, two
    [add_months] in a row are one [add_months] of the sum. *)
Theorem add_months_compose (date a b r1 r2 : Z) :
  in_int32 date -> in_int32 a -> in_int32 b -> in_int32 (a + b) ->
  getDay (getDateTime date) <= 28 ->
  AddMonthsFunction.call date a = Ok r1 ->
  AddMonthsFunction.call r1 b = Ok r2 ->
  AddMonthsFunction.call date (a + b) = Ok r2.
Proof.
  intros H Ha Hb Hab D28 E1 E2.
  pose proof (getDateTime_fields date) as (Mr & Dr & _).
  cbv zeta in Mr, Dr.
  rewrite AddMonthsFunction_call_fields in E1 by assumption. cbv zeta in E1.
  rewrite AddMonthsFunction_call_fields by assumption. cbv zeta.
  set (y := getYear (getDateTime date)) in *.
  set (m := getMonth (getDateTime date)) in *.
  set (d := getDay (getDateTime date)) in *.
  assert (Unclamped : forall y' m', 1 <= m' <= 12 ->
            (if getMaxDayOfMonth y' m' <? d then getMaxDayOfMonth y' m' else d) = d
            /\ 1 <= d <= getMaxDayOfMonth y' m').
  { intros y' m' Hm'.
    pose proof (month_length_pos (isLeapYear y') m' Hm') as Lp.
    fold (getMaxDayOfMonth y' m') in Lp.
    destruct (Z.ltb_spec (getMaxDayOfMonth y' m') d); lia. }
  set (y1 := y + (m - 1 + a) / 12) in *.
  set (m1 := (m - 1 + a) mod 12 + 1) in *.
  assert (M1 : 1 <= m1 <= 12) by (subst m1; dlia).
  destruct (Unclamped y1 m1 M1) as (U1 & D1). rewrite U1 in E1.
  destruct (in_int32b (daysSinceEpochFromDate y1 m1 d)) eqn:F1; [|discriminate].
  injection E1 as <-. apply in_int32b_spec in F1.
  rewrite AddMonthsFunction_call_fields in E2 by assumption. cbv zeta in E2.
  rewrite getDateTime_daysSinceEpochFromDate in E2 by assumption.
  unfold getYear, getMonth, getDay in E2. cbn [tm_year tm_mon tm_mday] in E2.
  replace (1900 + (y1 - 1900)) with y1 in E2 by lia.
  replace (1 + (m1 - 1) - 1 + b) with (m1 - 1 + b) in E2 by lia.
  assert (Ey : y + (m - 1 + (a + b)) / 12 = y1 + (m1 - 1 + b) / 12)
    by (subst y1 m1; dlia).
  assert (Em : (m - 1 + (a + b)) mod 12 + 1 = (m1 - 1 + b) mod 12 + 1)
    by (subst y1 m1; dlia).
  rewrite Ey, Em.
  destruct (in_int32b _) eqn:F2 in E2; [|discriminate].
  injection E2 as <-. rewrite F2. reflexivity.
Qed.

Lemma add_months_compose_witness :
  AddMonthsFunction.call 18655 11 = Ok 18989 /\
  AddMonthsFunction.call 18989 (-23) = Ok 18289 /\
  AddMonthsFunction.call 18655 (11 + -23) = Ok 18289.
Proof.
  assert (E1 : AddMonthsFunction.call 18655 11 = Ok 18989)
    by (vm_compute; reflexivity).
  assert (E2 : AddMonthsFunction.call 18989 (-23) = Ok 18289)
    by (vm_compute; reflexivity).
  split; [exact E1|]. split; [exact E2|].
  apply (add_months_compose 18655 11 (-23) 18989 18289);
    try (unfold in_int32, INT32_MIN, INT32_MAX; lia);
    try assumption.
  vm_compute. discriminate.
Defined.

(** ** [unix_timestamp] over the rows of a batch *)

Section UnixTimestampRows.

Context {DateTimeFormatter Timestamp : Type}.
Variable buildJodaDateTimeFormatter : string -> option DateTimeFormatter.
Variable getTimeZoneID : string -> Z.
Variable toGMT : Timestamp -> Z -> option Timestamp.
Variable getSeconds : Timestamp -> Z.
Variable parse : DateTimeFormatter -> string -> option (DateTimeResult Timestamp).


(** The adapter as [initialize] leaves it, for a format that compiles,
    for one that does not, and without a constant format. *)
Lemma initialize_state (sessionTzName : string) (format : option string) :
  let st := fst ((initialize buildJodaDateTimeFormatter getTimeZoneID) sessionTzName format constructed) in
  sessionTzID_ st
  = (if negb (sessionTzName =? "")%string
     then Some (getTimeZoneID sessionTzName) else None) /\
  match format with
  | None => format_ st = None /\ isConstFormat_ st = false /\
            invalidFormat_ st = false
  | Some f =>
      isConstFormat_ st = true /\
      match buildJodaDateTimeFormatter f with
      | Some fmt => format_ st = Some fmt /\ invalidFormat_ st = false
      | None => format_ st = None /\ invalidFormat_ st = true
      end
  end.
Proof.
  unfold initialize, setTimezone.
  destruct format as [f|]; [destruct (buildJodaDateTimeFormatter f)|];
    destruct (negb (sessionTzName =? "")%string); cbn; repeat split.
Qed.

(** Parsing reads the formatter and the session zone of the adapter only. *)
Lemma parse_with_ext (s1 s2 : ParseState DateTimeFormatter) (input : string) :
  format_ s1 = format_ s2 -> sessionTzID_ s1 = sessionTzID_ s2 ->
  (parse_with toGMT getSeconds parse) s1 input = (parse_with toGMT getSeconds parse) s2 input.
Proof.
  intros F S. unfold parse_with, getTimezoneId.
  rewrite F, S. reflexivity.
Qed.

(** One row on an adapter with a valid constant format. *)
Lemma call_constant (st : ParseState DateTimeFormatter) (input format : string) :
  invalidFormat_ st = false -> isConstFormat_ st = true ->
  (call buildJodaDateTimeFormatter toGMT getSeconds parse) st input format = ((parse_with toGMT getSeconds parse) st input, st, []).
Proof. intros V C. unfold call. rewrite V, C. reflexivity. Qed.

(** One row on an adapter without a constant format. *)
Lemma call_varying (st : ParseState DateTimeFormatter) (input format : string) :
  invalidFormat_ st = false -> isConstFormat_ st = false ->
  (call buildJodaDateTimeFormatter toGMT getSeconds parse) st input format
  = match buildJodaDateTimeFormatter format with
    | None => (Null, st, [format])
    | Some fmt =>
        let st' := {| format_ := Some fmt; sessionTzID_ := sessionTzID_ st;
                      isConstFormat_ := false; invalidFormat_ := false |} in
        ((parse_with toGMT getSeconds parse) st' input, st', [format])
    end.
Proof.
  intros V C. unfold call. rewrite V, C. cbn [negb].
  destruct (buildJodaDateTimeFormatter format); reflexivity.
Qed.

(** A constant format that compiles is compiled once, by [initialize];
    afterwards no row compiles anything or changes the adapter, and every
    row is parsed with that one formatter, whatever format the row itself
    carries. *)
Theorem constant_format_compiled_once (sessionTzName format : string)
    (fmt : DateTimeFormatter) (rows : list (string * string)) :
  buildJodaDateTimeFormatter format = Some fmt ->
  let init := (initialize buildJodaDateTimeFormatter getTimeZoneID) sessionTzName (Some format) constructed in
  snd init = [format] /\
  format_ (fst init) = Some fmt /\
  (call_rows buildJodaDateTimeFormatter toGMT getSeconds parse) (fst init) rows
  = (map (fun row => (parse_with toGMT getSeconds parse) (fst init) (fst row)) rows, fst init, []).
Proof.
  intros B init.
  pose proof (initialize_state sessionTzName (Some format)) as (_ & C & I).
  rewrite B in I. destruct I as (F & V). fold init in C, F, V.
  split; [reflexivity|]. split; [exact F|].
  set (st := fst init) in *. clearbody st.
  induction rows as [|[input f] rows IH]; [reflexivity|].
  cbn [call_rows map fst].
  rewrite call_constant by assumption. rewrite IH. reflexivity.
Qed.

(** The rows of a batch on an adapter without a constant format, compared
    with each row on such an adapter [st] of the same session zone. *)
Lemma call_rows_varying (st s : ParseState DateTimeFormatter)
    (rows : list (string * string)) :
  isConstFormat_ st = false -> invalidFormat_ st = false ->
  isConstFormat_ s = false -> invalidFormat_ s = false ->
  sessionTzID_ s = sessionTzID_ st ->
  let run := (call_rows buildJodaDateTimeFormatter toGMT getSeconds parse) s rows in
  snd run = map snd rows /\
  fst (fst run)
  = map (fun row => fst (fst ((call buildJodaDateTimeFormatter toGMT getSeconds
                                 parse) st (fst row) (snd row)))) rows /\
  isConstFormat_ (snd (fst run)) = false /\
  invalidFormat_ (snd (fst run)) = false /\
  sessionTzID_ (snd (fst run)) = sessionTzID_ st.
Proof.
  intros C0 V0. revert s.
  induction rows as [|[input f] rows IH]; intros s C V S; cbv zeta.
  - cbn. repeat split; assumption.
  - cbn [call_rows map fst snd].
    rewrite (call_varying s) by assumption.
    rewrite (call_varying st) by assumption.
    destruct (buildJodaDateTimeFormatter f) as [fmt|] eqn:B.
    + cbv zeta.
      destruct (IH {| format_ := Some fmt; sessionTzID_ := sessionTzID_ s;
                      isConstFormat_ := false; invalidFormat_ := false |}
                   eq_refl eq_refl S) as (L & O & C' & V' & S').
      destruct (call_rows _ _ _ _ _ rows) as [[os s'] log].
      cbn [fst snd] in *. rewrite L, O.
      repeat split; try assumption.
      f_equal. apply parse_with_ext; [reflexivity | exact S].
    + destruct (IH s C V S) as (L & O & C' & V' & S').
      destruct (call_rows _ _ _ _ _ rows) as [[os s'] log].
      cbn [fst snd] in *. rewrite L, O.
      repeat split; assumption.
Qed.

(** Without a constant format every row compiles its own format, once and
    in order; a row is evaluated as if it were the first one, so a format
    that does not compile nulls its own row only; the flags and the session
    zone of the adapter never change. *)
Theorem varying_format_compiled_per_row (sessionTzName : string)
    (rows : list (string * string)) :
  let st := fst ((initialize buildJodaDateTimeFormatter getTimeZoneID) sessionTzName None constructed) in
  let run := (call_rows buildJodaDateTimeFormatter toGMT getSeconds parse) st rows in
  snd run = map snd rows /\
  fst (fst run) = map (fun row => fst (fst ((call buildJodaDateTimeFormatter toGMT getSeconds parse) st (fst row) (snd row)))) rows /\
  isConstFormat_ (snd (fst run)) = false /\
  invalidFormat_ (snd (fst run)) = false /\
  sessionTzID_ (snd (fst run)) = sessionTzID_ st.
Proof.
  intros st run.
  pose proof (initialize_state sessionTzName None) as (_ & _ & C0 & V0).
  fold st in C0, V0. subst run.
  apply (call_rows_varying st st rows); try assumption. reflexivity.
Qed.

(** Compiling a format once for the batch does not change what the rows
    evaluate to: when every row carries the format [format], the adapter
    initialised with that constant format and the adapter initialised
    without one return the same results, whether the format compiles or
    not. *)
Theorem constant_format_same_results (sessionTzName format : string)
    (rows : list (string * string)) :
  Forall (fun row => snd row = format) rows ->
  fst (fst ((call_rows buildJodaDateTimeFormatter toGMT getSeconds parse) (fst ((initialize buildJodaDateTimeFormatter getTimeZoneID) sessionTzName (Some format) constructed))
                       rows))
  = fst (fst ((call_rows buildJodaDateTimeFormatter toGMT getSeconds parse) (fst ((initialize buildJodaDateTimeFormatter getTimeZoneID) sessionTzName None constructed))
                         rows)).
Proof.
  intros Same.
  pose proof (initialize_state sessionTzName None) as (Sv & _ & Cv & Vv).
  destruct (call_rows_varying _ _ rows Cv Vv Cv Vv eq_refl) as (_ & O & _).
  cbv zeta in O. rewrite O. clear O.
  pose proof (initialize_state sessionTzName (Some format)) as (Sc & Cc & I).
  set (sv := fst ((initialize buildJodaDateTimeFormatter getTimeZoneID) sessionTzName None constructed)) in *.
  set (sc := fst ((initialize buildJodaDateTimeFormatter getTimeZoneID) sessionTzName (Some format) constructed)) in *.
  rewrite <- Sv in Sc. clearbody sc sv.
  destruct (buildJodaDateTimeFormatter format) as [fmt|] eqn:B;
    destruct I as (F & V).
  - induction Same as [|[input f] rows E _ IH]; [reflexivity|].
    cbn [call_rows map fst snd] in *. subst f.
    rewrite call_constant by assumption.
    rewrite (call_varying sv) by assumption. rewrite B. cbv zeta.
    destruct (call_rows _ _ _ _ sc rows) as [[os s'] log].
    cbn [fst] in *. rewrite IH. f_equal.
    apply parse_with_ext; [exact F | exact Sc].
  - induction Same as [|[input f] rows E _ IH]; [reflexivity|].
    cbn [call_rows map fst snd] in *. subst f.
    unfold call at 1. rewrite V.
    rewrite (call_varying sv) by assumption. rewrite B.
    destruct (call_rows _ _ _ _ sc rows) as [[os s'] log].
    cbn [fst] in *. rewrite IH. reflexivity.
Qed.

(** [unix_timestamp(input)] and [unix_timestamp(input, format)] with the
    default format as the constant format agree on every input for which
    the former returns; where the time-zone conversion makes the former
    throw, the latter returns null. *)
Theorem default_format_agrees (sessionTzName input format : string)
    (st1 : ParseState DateTimeFormatter) (compiled : list string) :
  UnixTimestampParseFunction.initialize buildJodaDateTimeFormatter
    getTimeZoneID sessionTzName constructed = (Some st1, compiled) ->
  let st2 :=
    fst ((initialize buildJodaDateTimeFormatter getTimeZoneID) sessionTzName
           (Some UnixTimestampParseFunction.kDefaultFormat_) constructed) in
  match UnixTimestampParseFunction.call toGMT getSeconds parse st1 input with
  | Some o => fst (fst ((call buildJodaDateTimeFormatter toGMT getSeconds parse) st2 input format)) = o
  | None => fst (fst ((call buildJodaDateTimeFormatter toGMT getSeconds parse) st2 input format)) = Null
  end.
Proof.
  intros E st2.
  pose proof (initialize_state sessionTzName
                (Some UnixTimestampParseFunction.kDefaultFormat_)) as (S2 & C2 & I).
  fold st2 in S2, C2, I.
  unfold UnixTimestampParseFunction.initialize in E.
  destruct (buildJodaDateTimeFormatter UnixTimestampParseFunction.kDefaultFormat_)
    as [fmt|] eqn:B; [|discriminate].
  destruct I as (F2 & V2).
  injection E as <- _.
  rewrite call_constant by assumption. cbn [fst].
  unfold UnixTimestampParseFunction.call, parse_with, getTimezoneId.
  rewrite F2, S2.
  unfold setTimezone.
  destruct (negb (sessionTzName =? "")%string); cbn [format_ sessionTzID_ constructed];
    (destruct (parse fmt input) as [r|]; [|reflexivity]);
    destruct (toGMT _ _); reflexivity.
Qed.

End UnixTimestampRows.

Lemma constant_format_compiled_once_witness :
  let build := fun s : string => if (s =? "yyyy-QQ")%string then None else Some s in
  let parse := fun (_ : string) (input : string) =>
                 if (input =? "")%string then None
                 else Some (mk_DateTimeResult 1623753000 (-1)) in
  let toGMT := fun (ts : Z) (_ : Z) => Some ts in
  let st := fst (initialize build (fun _ => 0) "" (Some "yyyy-MM-dd"%string)
                   constructed) in
  build "yyyy-MM-dd"%string = Some "yyyy-MM-dd"%string /\
  call_rows build toGMT (fun ts => ts) parse st
    [("2021-06-15"%string, "yyyy-QQ"%string); (""%string, "yyyy-MM-dd"%string)]
  = ([Value 1623753000; Null], st, []).
Proof.
  intros build parse toGMT st.
  assert (B : build "yyyy-MM-dd"%string = Some "yyyy-MM-dd"%string) by reflexivity.
  split; [exact B|].
  destruct (constant_format_compiled_once build (fun _ => 0) toGMT (fun ts => ts)
              parse ""%string "yyyy-MM-dd"%string "yyyy-MM-dd"%string
              [("2021-06-15"%string, "yyyy-QQ"%string);
               (""%string, "yyyy-MM-dd"%string)] B) as (_ & _ & E).
  exact E.
Defined.

Lemma constant_format_same_results_witness :
  let build := fun s : string => if (s =? "yyyy-QQ")%string then None else Some s in
  let parse := fun (_ : string) (input : string) =>
                 if (input =? "")%string then None
                 else Some (mk_DateTimeResult 1623753000 (-1)) in
  let toGMT := fun (ts : Z) (_ : Z) => Some ts in
  let rows := [("2021-06-15"%string, "yyyy-MM-dd"%string);
               (""%string, "yyyy-MM-dd"%string)] in
  Forall (fun row : string * string => snd row = "yyyy-MM-dd"%string) rows /\
  fst (fst (call_rows build toGMT (fun ts => ts) parse
              (fst (initialize build (fun _ => 0) "" (Some "yyyy-MM-dd"%string)
                      constructed)) rows))
  = fst (fst (call_rows build toGMT (fun ts => ts) parse
                (fst (initialize build (fun _ => 0) "" None constructed)) rows)).
Proof.
  intros build parse toGMT rows.
  assert (S : Forall (fun row : string * string => snd row = "yyyy-MM-dd"%string)
                rows) by (repeat constructor).
  split; [exact S|].
  exact (constant_format_same_results build (fun _ => 0) toGMT (fun ts => ts)
           parse ""%string "yyyy-MM-dd"%string rows S).
Defined.

Lemma default_format_agrees_witness :
  let build := fun s : string => if (s =? "yyyy-QQ")%string then None else Some s in
  let parse := fun (_ : string) (input : string) =>
                 if (input =? "")%string then None
                 else Some (mk_DateTimeResult 1623753000 (-1)) in
  let toGMT := fun (ts : Z) (_ : Z) => Some ts in
  let st2 := fst (initialize build (fun _ => 0) ""
                    (Some UnixTimestampParseFunction.kDefaultFormat_)
                    constructed) in
  fst (UnixTimestampParseFunction.initialize build (fun _ => 0) "" constructed)
  <> None /\
  fst (fst (call build toGMT (fun ts => ts) parse st2
              "2021-06-15 10:30:00" "yyyy-QQ"))
  = Value 1623753000.
Proof.
  intros build parse toGMT st2.
  split; [discriminate|].
  exact (default_format_agrees build (fun _ => 0) toGMT (fun ts => ts) parse
           ""%string "2021-06-15 10:30:00"%string "yyyy-QQ"%string _ _ eq_refl).
Defined.
